(** * AdaNet iteration builder: a shallow embedding of [adanet/core/iteration.py]

    The Python file builds a TensorFlow graph.  Graph nodes (tensors and
    operations) are the data the program manipulates, so they are modelled
    as first-order data ([tf.Tensor], [tf.Op]); what a node does when the
    session runs it is given by [tf.eval] and [tf.exec].  The Python
    functions themselves are translated one by one into Rocq functions that
    build such nodes; a Python exception is a [Raise] result. *)

From Stdlib Require Import QArith.
From stdpp Require Import gmap strings list fin_maps sorting pretty.

Set Warnings "-register-all,-clear-no-such-hyp".

Local Open Scope string_scope.
Local Open Scope Z_scope.
Local Open Scope list_scope.

(** ** Python results and exceptions *)

Inductive PyError :=
| ValueError (msg : string)
| TypeError (msg : string)
| AttributeError (msg : string)
| IndexError (msg : string)
| KeyError (key : string).

Inductive result (A : Type) :=
| Ok (a : A)
| Raise (e : PyError).
Arguments Ok {A} a.
Arguments Raise {A} e.

#[global] Instance result_ret : MRet result := λ A a, Ok a.
#[global] Instance result_bind : MBind result := λ A B k r,
  match r with
  | Ok a => k a
  | Raise e => Raise e
  end.

#[global] Instance result_fmap : FMap result := λ A B f r,
  match r with
  | Ok a => Ok (f a)
  | Raise e => Raise e
  end.

(** A [for] loop whose body may raise: the accumulator is threaded from left
    to right and the first exception leaves the loop. *)
Fixpoint for_each {A S} (body : S → A → result S) (l : list A) (s : S)
  : result S :=
  match l with
  | [] => Ok s
  | x :: l' => s' ← body s x; for_each body l' s'
  end.

(** [sorted(d)] on a dictionary with string keys: the keys in increasing
    code-point order. *)
Definition sorted (keys : list string) : list string :=
  merge_sort String.le keys.

Definition sorted_keys {V} (d : gmap string V) : list string :=
  sorted (elements (dom d)).

(** ** The TensorFlow graph *)

Module tf.

Inductive ModeKeys := TRAIN | EVAL | PREDICT.

#[global] Instance ModeKeys_eq_dec : EqDecision ModeKeys.
Proof. solve_decision. Defined.

Definition mode_eqb (a b : ModeKeys) : bool :=
  match a, b with
  | TRAIN, TRAIN | EVAL, EVAL | PREDICT, PREDICT => true
  | _, _ => false
  end.

Inductive DType := bool_ | int64 | float32.

(** Run-time values.  Floating-point numbers are modelled by rationals. *)
Inductive Value :=
| VBool (b : bool)
| VInt (z : Z)
| VFloat (q : Q)
| VArray (l : list Value).

(** [tf.zeros_initializer()] at a scalar shape. *)
Definition zeros_initializer (d : DType) : Value :=
  match d with
  | bool_ => VBool false
  | int64 => VInt 0
  | float32 => VFloat 0
  end.

(** A variable of the graph: its full name and its initial value. *)
Record Var := get_variable {
  var_name : string;
  initial_value : Value;
}.

(** Tensors.  [Opaque] nodes are the tensors handed over by the
    collaborators (losses, predictions, training flags). *)
Inductive Tensor :=
| Opaque (name : string)
| constant (v : Value)
| convert_to_tensor (var : Var)
| logical_and (a b : Tensor)
| logical_not (a : Tensor)
| argmin (l : list Tensor)
| stack (l : list Tensor)
| getitem (t i : Tensor)
| slice1 (t i : Tensor)
| reshape_scalar (t : Tensor)
| cast_int32 (t : Tensor)
| tile (t : Tensor) (multiples : Z)
| metrics_mean_value (t : Tensor).

(** Operations.  [OpaqueOp] nodes are the train ops of the collaborators. *)
Inductive Op :=
| OpaqueOp (name : string)
| no_op (name : string)
| assign (var : Var) (v : Value) (name : string)
| assign_add (var : Var) (n : Z)
| cond (pred : Tensor) (true_fn false_fn : Op)
| group (l : list Op)
| control_dependencies (deps : list Op) (body : Op)
| metrics_mean_update (t : Tensor).

(** [tf.metrics.mean(t)] returns the pair (value tensor, update op). *)
Definition metrics_mean (t : Tensor) : Tensor * Op :=
  (metrics_mean_value t, metrics_mean_update t).

(** *** Running the graph *)

(** The variable store of a session, by variable name. *)
Abbreviation Store := (gmap string Value).

(** What the nodes this file does not build do at run time: the opaque
    tensors and train ops of the collaborators, and the accumulators
    behind [tf.metrics.mean]. *)
Record World := {
  tensor_value : string → Store → option Value;
  op_effect : string → Store → option Store;
  mean_value : Tensor → Store → option Value;
  mean_update : Tensor → Store → option Store;
}.

Definition Qltb (x y : Q) : bool := negb (Qle_bool y x).

(** Position of the minimum, scanning from the left and replacing the
    running minimum only by a strictly smaller value. *)
Fixpoint argmin_scan (best : Q) (besti i : nat) (l : list Q) : nat :=
  match l with
  | [] => besti
  | x :: l' =>
      if Qltb x best then argmin_scan x i (S i) l'
      else argmin_scan best besti (S i) l'
  end.

Definition argmin_list (l : list Q) : option nat :=
  match l with
  | [] => None
  | x :: l' => Some (argmin_scan x 0%nat 1%nat l')
  end.

Definition as_float (v : Value) : option Q :=
  match v with
  | VFloat q => Some q
  | _ => None
  end.

(** Truncation toward zero, as a float-to-integer cast does. *)
Definition truncate (q : Q) : Z := Z.quot (Qnum q) (Z.pos (Qden q)).

(** 64-bit two's complement wrap-around of [assign_add] on an [int64]. *)
Definition wrap64 (z : Z) : Z := (z + 2 ^ 63) `mod` 2 ^ 64 - 2 ^ 63.

(** [vs[i]] with a run-time index: negative indices count from the end. *)
Definition index (vs : list Value) (i : Z) : option Value :=
  let n := Z.of_nat (length vs) in
  if (0 <=? i) && (i <? n) then vs !! Z.to_nat i
  else if (- n <=? i) && (i <? 0) then vs !! Z.to_nat (i + n)
  else None.

Fixpoint eval (w : World) (s : Store) (t : Tensor) : option Value :=
  match t with
  | Opaque name => tensor_value w name s
  | constant v => Some v
  | convert_to_tensor var => s !! var_name var
  | logical_and a b =>
      match eval w s a, eval w s b with
      | Some (VBool x), Some (VBool y) => Some (VBool (x && y))
      | _, _ => None
      end
  | logical_not a =>
      match eval w s a with
      | Some (VBool x) => Some (VBool (negb x))
      | _ => None
      end
  | argmin l =>
      qs ← mapM (λ t, eval w s t ≫= as_float) l;
      i ← argmin_list qs;
      Some (VInt (Z.of_nat i))
  | stack l => VArray <$> mapM (eval w s) l
  | getitem t i =>
      match eval w s t, eval w s i with
      | Some (VArray vs), Some (VInt z) => index vs z
      | _, _ => None
      end
  | slice1 t i =>
      match eval w s t, eval w s i with
      | Some (VArray vs), Some (VInt z) =>
          if (0 <=? z) && (z <? Z.of_nat (length vs))
          then (λ v, VArray [v]) <$> vs !! Z.to_nat z
          else None
      | _, _ => None
      end
  | reshape_scalar t =>
      match eval w s t with
      | Some (VArray [v]) => Some v
      | Some (VArray _) => None
      | r => r
      end
  | cast_int32 t =>
      match eval w s t with
      | Some (VFloat q) => Some (VInt (truncate q))
      | Some (VInt z) => Some (VInt z)
      | _ => None
      end
  | tile t n =>
      match eval w s t with
      | Some (VArray vs) =>
          Some (VArray (mjoin (replicate (Z.to_nat n) vs)))
      | _ => None
      end
  | metrics_mean_value t => mean_value w t s
  end.

(** A pass either completes or aborts at the first node that fails; in
    both cases the store reached and the primitive nodes that ran, in
    order, are kept. *)
Inductive Status := Completed | Aborted.

Record Run := mkRun {
  status : Status;
  store : Store;
  trace : list Op;
}.

Definition then_ (r : Run) (k : Store → list Op → Run) : Run :=
  match status r with
  | Completed => k (store r) (trace r)
  | Aborted => r
  end.

Fixpoint exec (w : World) (o : Op) (s : Store) (tr : list Op) : Run :=
  let exec_all :=
    fix exec_all (l : list Op) (s : Store) (tr : list Op) : Run :=
      match l with
      | [] => mkRun Completed s tr
      | o' :: l' => then_ (exec w o' s tr) (exec_all l')
      end in
  match o with
  | OpaqueOp name =>
      match op_effect w name s with
      | Some s' => mkRun Completed s' (tr ++ [o])
      | None => mkRun Aborted s tr
      end
  | no_op _ => mkRun Completed s (tr ++ [o])
  | assign var v _ =>
      match s !! var_name var with
      | Some _ => mkRun Completed (<[var_name var := v]> s) (tr ++ [o])
      | None => mkRun Aborted s tr
      end
  | assign_add var n =>
      match s !! var_name var with
      | Some (VInt z) =>
          mkRun Completed (<[var_name var := VInt (wrap64 (z + n))]> s)
            (tr ++ [o])
      | _ => mkRun Aborted s tr
      end
  | cond pred true_fn false_fn =>
      match eval w s pred with
      | Some (VBool true) => exec w true_fn s tr
      | Some (VBool false) => exec w false_fn s tr
      | _ => mkRun Aborted s tr
      end
  | group l => exec_all l s tr
  | control_dependencies deps body =>
      then_ (exec_all deps s tr) (exec w body)
  | metrics_mean_update t =>
      match mean_update w t s with
      | Some s' => mkRun Completed s' (tr ++ [o])
      | None => mkRun Aborted s tr
      end
  end.

Fixpoint exec_all (w : World) (l : list Op) (s : Store) (tr : list Op)
  : Run :=
  match l with
  | [] => mkRun Completed s tr
  | o :: l' => then_ (exec w o s tr) (exec_all w l')
  end.

(** One [session.run] of an op: the trace starts empty. *)
Definition run (w : World) (o : Op) (s : Store) : Run := exec w o s [].

End tf.

(** ** Collaborators of the iteration builder

    The records below are declared in other files of the package
    ([subnetwork], [ensemble], [candidate], [summary], [dict_utils]); only
    the fields that [iteration.py] reads are kept. *)

Definition MetricOp : Type := tf.Tensor * tf.Op.
Abbreviation Metrics := (gmap string MetricOp).
Abbreviation Kwargs := (gmap string tf.Tensor).

Module subnetwork.

(** Modelled from the spec: [subnetwork.TrainOpSpec] is declared outside
    [iteration.py]; it exposes a [train_op] plus optional chief-only hooks
    and regular hooks. *)
Record TrainOpSpec := {
  train_op : tf.Op;
  chief_hooks : option (list string);
  hooks : option (list string);
}.

(** Modelled from the spec: [subnetwork.Report] is declared outside
    [iteration.py]; a record of hyperparameters, attributes and metrics. *)
Record Report := {
  hparams : gmap string tf.Value;
  attributes : gmap string tf.Value;
  metrics : Metrics;
}.

(** Modelled from the spec: a [subnetwork.Builder] has a [name] and a
    [build_subnetwork_report()] hook producing a [Report] or [None]; the
    field holds what the hook returns, a report of the builder's own. *)
Record Builder := {
  name : string;
  build_subnetwork_report : option Report;
}.

End subnetwork.

Module summary.

Record _ScopedSummary := {
  scope : string;
  skip_summary : bool;
}.

End summary.

Inductive Predictions :=
| PredTensor (t : tf.Tensor)
| PredDict (d : Kwargs).

(** [tf.estimator.export]: the three recognised kinds of export output, and
    any other object found in their place. *)
Inductive ExportOutput :=
| ClassificationOutput (scores classes : option tf.Tensor)
| RegressionOutput (value : tf.Tensor)
| PredictOutput (outputs : Predictions)
| OtherOutput (repr : string).

Module ensemble.

(** The pair [(metric_fn, kwargs)] stored in [eval_metrics]. *)
Record EvalMetrics := {
  metric_fn : Kwargs → Metrics;
  kwargs : Kwargs;
}.

(** Modelled from the spec: [_EnsembleSpec] is declared outside
    [iteration.py]; the bundle of loss, predictions, metrics, export outputs
    and train ops of one candidate's combined model. *)
Record _EnsembleSpec := {
  name : string;
  loss : option tf.Tensor;
  adanet_loss : tf.Tensor;
  predictions : Predictions;
  eval_metrics : option EvalMetrics;
  export_outputs : option (gmap string ExportOutput);
  subnetwork_train_op : option subnetwork.TrainOpSpec;
  ensemble_train_op : option subnetwork.TrainOpSpec;
}.

End ensemble.

Module candidate.

(** Modelled from the spec: [_Candidate] is declared outside
    [iteration.py]; it pairs an ensemble spec with the training flag and the
    loss used to rank the candidates. *)
Record _Candidate := {
  ensemble_spec : ensemble._EnsembleSpec;
  adanet_loss : tf.Tensor;
  is_training : tf.Tensor;
}.

End candidate.

Abbreviation _Candidate := candidate._Candidate.
Abbreviation _EnsembleSpec := ensemble._EnsembleSpec.

Abbreviation Features := (gmap string tf.Tensor).
Abbreviation Params := (gmap string Z).

(** The two builder objects an [_IterationBuilder] is created with; each is
    used through one method. *)
Record _CandidateBuilder := {
  build_candidate :
    ∀ (ensemble_spec : _EnsembleSpec) (training : bool)
      (iteration_step : tf.Tensor)
      (summary : option summary._ScopedSummary)
      (is_previous_best : bool), _Candidate;
}.

Record _EnsembleBuilder := {
  append_new_subnetwork :
    ∀ (ensemble_name : string) (ensemble_spec : option _EnsembleSpec)
      (iteration_number : Z) (subnetwork_builder : subnetwork.Builder)
      (summary : summary._ScopedSummary) (features : Features)
      (mode : tf.ModeKeys) (iteration_step : tf.Tensor)
      (labels : option tf.Tensor) (params : option Params), _EnsembleSpec;
}.

Module estimator.

(** [tf.estimator.EstimatorSpec], as a plain record of its arguments. *)
Record EstimatorSpec := {
  mode : tf.ModeKeys;
  predictions : Predictions;
  loss : option tf.Tensor;
  train_op : tf.Op;
  eval_metric_ops : option Metrics;
  export_outputs : option (gmap string ExportOutput);
  training_chief_hooks : list string;
  training_hooks : list string;
}.

End estimator.

Abbreviation EstimatorSpec := estimator.EstimatorSpec.

(** A zero-argument function returning a variable ([tf.make_template]). *)
Definition Template : Type := unit → tf.Var.

(** ** Python objects

    [_Iteration.__new__] inspects the dynamic type of its arguments; this is
    the universe of objects it can be handed. *)
Inductive PyObject :=
| PyNone
| PyBool (b : bool)
| PyInt (z : Z)
| PyFloat (q : Q)
| PyStr (s : string)
| PyList (l : list PyObject)
| PyTuple (l : list PyObject)
| PyDict (d : gmap string PyObject)
| PyCandidate (c : _Candidate)
| PySummary (s : summary._ScopedSummary)
| PyReport (r : subnetwork.Report)
| PyEstimatorSpec (e : EstimatorSpec)
| PyTensor (t : tf.Tensor)
| PyFunction (f : Template).

(** ** The [_Iteration] record *)

(** [isinstance(x, (int, np.integer))]; [bool] is a subclass of [int]. *)
Definition isinstance_int (x : PyObject) : bool :=
  match x with
  | PyInt _ | PyBool _ => true
  | _ => false
  end.

Definition isinstance_list (x : PyObject) : bool :=
  match x with
  | PyList _ => true
  | _ => false
  end.

Definition isinstance_dict (x : PyObject) : bool :=
  match x with
  | PyDict _ => true
  | _ => false
  end.

Definition is_None (x : PyObject) : bool :=
  match x with
  | PyNone => true
  | _ => false
  end.

(** The integer an [int] (or [bool]) stands for. *)
Definition int_value (x : PyObject) : Z :=
  match x with
  | PyInt z => z
  | PyBool b => if b then 1 else 0
  | _ => 0
  end.

(** Truth value of an object, as [not x] sees it. *)
Definition truthy (x : PyObject) : bool :=
  match x with
  | PyNone => false
  | PyBool b => b
  | PyInt z => negb (z =? 0)
  | PyFloat q => negb (Qeq_bool q 0)
  | PyStr s => negb (String.eqb s "")
  | PyList l | PyTuple l => negb (bool_decide (l = []))
  | PyDict d => negb (bool_decide (size d = 0%nat))
  | _ => true
  end.

Record _Iteration := {
  number : PyObject;
  candidates : PyObject;
  estimator_spec : PyObject;
  best_candidate_index : PyObject;
  summaries : PyObject;
  is_over_fn : PyObject;
  subnetwork_reports : PyObject;
  step : PyObject;
}.

(** [_Iteration.__new__]: the validated constructor. *)
Definition _Iteration__new__
    (number candidates estimator_spec best_candidate_index summaries
     is_over_fn subnetwork_reports step : PyObject) : result _Iteration :=
  if negb (isinstance_int number) then
    Raise (ValueError "number must be an integer")
  else if int_value number <? 0 then
    Raise (ValueError ("number must be greater than 0 got "
                       +:+ pretty (int_value number)))
  else if negb (isinstance_list candidates) || negb (truthy candidates) then
    Raise (ValueError "candidates must be a non-empty list")
  else if is_None estimator_spec then
    Raise (ValueError "estimator_spec is required")
  else if is_None best_candidate_index then
    Raise (ValueError "best_candidate_index is required")
  else if negb (isinstance_dict subnetwork_reports) then
    Raise (ValueError "subnetwork_reports must be a dict")
  else if is_None step then
    Raise (ValueError "step is required")
  else
    Ok {| number := number;
          candidates := candidates;
          estimator_spec := estimator_spec;
          best_candidate_index := best_candidate_index;
          summaries := summaries;
          is_over_fn := is_over_fn;
          subnetwork_reports := subnetwork_reports;
          step := step |}.

(** [_is_over_var]: a boolean scalar variable initialised by
    [tf.zeros_initializer()]. *)
Definition _is_over_var (scope : string) : tf.Var :=
  tf.get_variable (scope +:+ "is_over_var") (tf.zeros_initializer tf.bool_).

(** ** [_IterationBuilder] *)

Record _IterationBuilder := {
  _candidate_builder : _CandidateBuilder;
  _ensemble_builder : _EnsembleBuilder;
  _replicate_ensemble_in_training : bool;
}.

(** The global step of the graph, [tf.train.get_global_step()]. *)
Definition get_global_step : tf.Var :=
  tf.get_variable "global_step" (tf.zeros_initializer tf.int64).

(** [_assign_is_over]: the conjunction of [not is_training] over the
    candidates, starting from [True], guards the assignment. *)
Definition _assign_is_over (candidates : list _Candidate)
    (is_over_var_template : Template) : tf.Op :=
  let is_over :=
    foldl (λ is_over c,
             tf.logical_and is_over (tf.logical_not (candidate.is_training c)))
          (tf.constant (tf.VBool true)) candidates in
  let is_over_var := is_over_var_template () in
  tf.cond is_over
    (tf.assign is_over_var (tf.VBool true) "assign_is_over")
    (tf.no_op "noassign_is_over").

(** The body of the loop of [_create_train_op] that collects the train ops
    of one candidate. *)
Definition collect_train_ops (train_ops : list tf.Op) (c : _Candidate)
  : result (list tf.Op) :=
  match ensemble.subnetwork_train_op (candidate.ensemble_spec c) with
  | Some sub =>
      match ensemble.ensemble_train_op (candidate.ensemble_spec c) with
      | Some ens =>
          Ok (train_ops ++ [subnetwork.train_op sub; subnetwork.train_op ens])
      | None =>
          Raise (AttributeError
                   "'NoneType' object has no attribute 'train_op'")
      end
  | None => Ok train_ops
  end.

Definition _create_train_op (candidates : list _Candidate)
    (mode : tf.ModeKeys) (step : tf.Var) (is_over_var_template : Template)
  : result tf.Op :=
  if negb (tf.mode_eqb mode tf.TRAIN) then Ok (tf.no_op "NoOp")
  else
    train_ops ← for_each collect_train_ops candidates [];
    let train_ops :=
      train_ops ++ [_assign_is_over candidates is_over_var_template] in
    Ok (tf.control_dependencies train_ops
          (tf.group [tf.assign_add get_global_step 1;
                     tf.assign_add step 1])).

(** [_best_candidate_index] *)
Definition _best_candidate_index (candidates : list _Candidate) : tf.Tensor :=
  if bool_decide (length candidates = 1%nat) then tf.constant (tf.VInt 0)
  else tf.argmin (candidate.adanet_loss <$> candidates).

(** [tf.stack] on a Python list: a [None] element is rejected when the node
    is built. *)
Definition tf_stack (l : list (option tf.Tensor)) : result tf.Tensor :=
  match mapM id l with
  | Some ts => Ok (tf.stack ts)
  | None => Raise (ValueError "None values not supported.")
  end.

(** The local variable [predictions] of [_best_predictions]: [None], a
    dictionary of lists, or a list. *)
Inductive PredictionsAcc :=
| AccNone
| AccDict (d : gmap string (list tf.Tensor))
| AccList (l : list tf.Tensor).

(** [not predictions] *)
Definition acc_falsy (a : PredictionsAcc) : bool :=
  match a with
  | AccNone => true
  | AccDict d => bool_decide (d = ∅)
  | AccList l => bool_decide (l = [])
  end.

Definition collect_prediction_key (d : Kwargs) (acc : PredictionsAcc)
    (key : string) : result PredictionsAcc :=
  match d !! key with
  | None => Raise (KeyError key)
  | Some tensor =>
      match acc with
      | AccDict g =>
          match g !! key with
          | Some l => Ok (AccDict (<[key := l ++ [tensor]]> g))
          | None => Ok (AccDict (<[key := [tensor]]> g))
          end
      | AccList _ =>
          Raise (TypeError "list indices must be integers or slices, not str")
      | AccNone =>
          Raise (TypeError "argument of type 'NoneType' is not iterable")
      end
  end.

Definition collect_predictions (acc : PredictionsAcc) (c : _Candidate)
  : result PredictionsAcc :=
  match ensemble.predictions (candidate.ensemble_spec c) with
  | PredDict d =>
      let acc := if acc_falsy acc then AccDict ∅ else acc in
      for_each (collect_prediction_key d) (sorted_keys d) acc
  | PredTensor t =>
      let acc := if acc_falsy acc then AccList [] else acc in
      match acc with
      | AccList l => Ok (AccList (l ++ [t]))
      | _ => Raise (AttributeError "'dict' object has no attribute 'append'")
      end
  end.

Definition _best_predictions (candidates : list _Candidate)
    (best_candidate_index : tf.Tensor) : result Predictions :=
  let stacked :=
    predictions ← for_each collect_predictions candidates AccNone;
    match predictions with
    | AccDict g =>
        Ok (PredDict
              ((λ tensor_list,
                  tf.getitem (tf.stack tensor_list) best_candidate_index)
               <$> g))
    | AccList l =>
        Ok (PredTensor (tf.getitem (tf.stack l) best_candidate_index))
    | AccNone => Raise (ValueError "None values not supported.")
    end in
  match candidates with
  | [c] => Ok (ensemble.predictions (candidate.ensemble_spec c))
  | _ => stacked
  end.

Definition _best_loss (candidates : list _Candidate)
    (best_candidate_index : tf.Tensor) (mode : tf.ModeKeys)
  : result (option tf.Tensor) :=
  let sliced :=
    let losses :=
      (λ c, ensemble.loss (candidate.ensemble_spec c)) <$> candidates in
    stacked ← tf_stack losses;
    Ok (Some (tf.reshape_scalar (tf.slice1 stacked best_candidate_index))) in
  if tf.mode_eqb mode tf.PREDICT then Ok None
  else
    match candidates with
    | [c] => Ok (ensemble.loss (candidate.ensemble_spec c))
    | _ => sliced
    end.

(** The lists [_best_export_outputs] groups under an export key: a pair of
    lists for a classification output, one list for a regression output. *)
Inductive ExportAcc :=
| AccClassification (scores classes : list tf.Tensor)
| AccRegression (values : list tf.Tensor).

Definition append_some (l : list tf.Tensor) (t : option tf.Tensor)
  : list tf.Tensor :=
  match t with
  | Some t => l ++ [t]
  | None => l
  end.

Definition collect_export_key (d : gmap string ExportOutput)
    (acc : gmap string ExportAcc) (key : string)
  : result (gmap string ExportAcc) :=
  match d !! key with
  | None => Raise (KeyError key)
  | Some (ClassificationOutput scores classes) =>
      let acc :=
        match acc !! key with
        | None => <[key := AccClassification [] []]> acc
        | Some _ => acc
        end in
      match acc !! key with
      | Some (AccClassification ss cs) =>
          Ok (<[key := AccClassification (append_some ss scores)
                         (append_some cs classes)]> acc)
      | Some (AccRegression vs) =>
          match scores, classes with
          | None, None => Ok acc
          | None, Some _ =>
              if bool_decide (length vs < 2)%nat
              then Raise (IndexError "list index out of range")
              else Raise (AttributeError
                            "'Tensor' object has no attribute 'append'")
          | Some _, _ =>
              Raise (AttributeError
                       "'Tensor' object has no attribute 'append'")
          end
      | None => Raise (KeyError key)
      end
  | Some (RegressionOutput value) =>
      let acc :=
        match acc !! key with
        | None => <[key := AccRegression []]> acc
        | Some _ => acc
        end in
      match acc !! key with
      | Some (AccRegression vs) => Ok (<[key := AccRegression (vs ++ [value])]> acc)
      | _ => Raise (AttributeError "'tuple' object has no attribute 'append'")
      end
  | Some (PredictOutput _) => Ok acc
  | Some (OtherOutput repr) =>
      Raise (TypeError
               ("Values in export_outputs must be ClassificationOutput, "
                +:+ "RegressionOutput, or PredictOutput objects. Given: "
                +:+ repr))
  end.

Definition collect_export_outputs (acc : gmap string ExportAcc)
    (c : _Candidate) : result (gmap string ExportAcc) :=
  match ensemble.export_outputs (candidate.ensemble_spec c) with
  | None => Raise (TypeError "'NoneType' object is not iterable")
  | Some d => for_each (collect_export_key d) (sorted_keys d) acc
  end.

(** [tf.stack(l)[best_candidate_index]] when the list is non-empty. *)
Definition stack_best (l : list tf.Tensor) (best_candidate_index : tf.Tensor)
  : option tf.Tensor :=
  match l with
  | [] => None
  | _ => Some (tf.getitem (tf.stack l) best_candidate_index)
  end.

Definition select_export_key (d : gmap string ExportOutput)
    (export_outputs : gmap string ExportAcc)
    (best_candidate_index : tf.Tensor) (best_predictions : Predictions)
    (best : gmap string ExportOutput) (key : string)
  : result (gmap string ExportOutput) :=
  match d !! key with
  | None => Raise (KeyError key)
  | Some (ClassificationOutput _ _) =>
      match export_outputs !! key with
      | Some (AccClassification ss cs) =>
          Ok (<[key := ClassificationOutput
                         (stack_best ss best_candidate_index)
                         (stack_best cs best_candidate_index)]> best)
      | Some (AccRegression vs) =>
          Raise (TypeError "'Tensor' object is not subscriptable")
      | None => Raise (KeyError key)
      end
  | Some (RegressionOutput _) =>
      match export_outputs !! key with
      | Some (AccRegression vs) =>
          Ok (<[key := RegressionOutput
                         (tf.getitem (tf.stack vs) best_candidate_index)]>
                best)
      | Some (AccClassification _ _) =>
          Raise (TypeError "Expected list for 'values' argument")
      | None => Raise (KeyError key)
      end
  | Some _ => Ok (<[key := PredictOutput best_predictions]> best)
  end.

Definition _best_export_outputs (candidates : list _Candidate)
    (best_candidate_index : tf.Tensor) (mode : tf.ModeKeys)
    (best_predictions : Predictions)
  : result (option (gmap string ExportOutput)) :=
  let stacked :=
    export_outputs ← for_each collect_export_outputs candidates ∅;
    match candidates with
    | [] => Raise (IndexError "list index out of range")
    | c0 :: _ =>
        match ensemble.export_outputs (candidate.ensemble_spec c0) with
        | None => Raise (TypeError "'NoneType' object is not iterable")
        | Some d =>
            Some <$>
            for_each (select_export_key d export_outputs
                        best_candidate_index best_predictions)
              (sorted_keys d) ∅
        end
    end in
  if negb (tf.mode_eqb mode tf.PREDICT) then Ok None
  else
    match candidates with
    | [c] => Ok (ensemble.export_outputs (candidate.ensemble_spec c))
    | _ => stacked
    end.

Module dict_utils.

(** An argument of the nested mapping handed to [flatten_dict]: a tensor, or
    the keyword arguments of one candidate's metric function. *)
Inductive Nested :=
| Leaf (t : tf.Tensor)
| Inner (d : Kwargs).

(** Modelled from the spec: [dict_utils.flatten_dict] and
    [dict_utils.unflatten_dict] are declared outside [iteration.py]; they are
    a pure structural transform whose round trip (flatten, then unflatten
    with the same key set) reproduces the nested mapping exactly.  The flat
    form is kept abstract: it wraps the nested mapping it came from. *)
Record Flat := flatten_dict {
  nested : gmap string Nested;
}.

Definition unflatten_dict (flat : Flat) (prefixes : list string)
  : gmap string Nested :=
  nested flat.

End dict_utils.

Abbreviation MetricFn := (Kwargs → Metrics).

(** [_collate_metric_fns_and_tensors]: the metric functions and their
    arguments, keyed by ["candidate_<i>"]; candidates without
    [eval_metrics] are skipped. *)
Definition collate_candidate
    (acc : gmap string MetricFn * gmap string dict_utils.Nested)
    (ic : nat * _Candidate)
  : gmap string MetricFn * gmap string dict_utils.Nested :=
  let '(fns, tensors) := acc in
  let '(i, c) := ic in
  match ensemble.eval_metrics (candidate.ensemble_spec c) with
  | None => (fns, tensors)
  | Some em =>
      let key := "candidate_" +:+ pretty i in
      (<[key := ensemble.metric_fn em]> fns,
       <[key := dict_utils.Inner (ensemble.kwargs em)]> tensors)
  end.

Definition _collate_metric_fns_and_tensors (candidates : list _Candidate)
  : gmap string MetricFn * gmap string dict_utils.Nested :=
  foldl collate_candidate (∅, ∅) (imap pair candidates).

(** [_group_metric_ops]: every metric function is run on the arguments
    stored under its key, in sorted key order, and the ops it returns are
    appended to the list of their metric name. *)
Definition group_metric_op (eval_metric_ops : Metrics)
    (grouped_metrics : gmap string (list MetricOp)) (metric_name : string)
  : result (gmap string (list MetricOp)) :=
  match eval_metric_ops !! metric_name with
  | None => Raise (KeyError metric_name)
  | Some metric_op =>
      Ok (<[metric_name :=
              default [] (grouped_metrics !! metric_name) ++ [metric_op]]>
            grouped_metrics)
  end.

Definition group_metric_fn (metric_fns : gmap string MetricFn)
    (tensors : gmap string dict_utils.Nested)
    (grouped_metrics : gmap string (list MetricOp)) (key : string)
  : result (gmap string (list MetricOp)) :=
  match metric_fns !! key, tensors !! key with
  | Some fn, Some (dict_utils.Inner args) =>
      let eval_metric_ops := fn args in
      for_each (group_metric_op eval_metric_ops)
        (sorted_keys eval_metric_ops) grouped_metrics
  | Some _, Some (dict_utils.Leaf _) =>
      Raise (TypeError "argument after ** must be a mapping, not Tensor")
  | _, _ => Raise (KeyError key)
  end.

Definition _group_metric_ops (metric_fns : gmap string MetricFn)
    (tensors : gmap string dict_utils.Nested)
  : result (gmap string (list MetricOp)) :=
  for_each (group_metric_fn metric_fns tensors) (sorted_keys metric_fns) ∅.

(** [str.endswith] and the slice [s[:-len(suffix)]]. *)
Definition endswith (s suffix : string) : bool :=
  bool_decide (String.length suffix ≤ String.length s)%nat
  && String.eqb
       (String.substring (String.length s - String.length suffix)
          (String.length suffix) s)
       suffix.

Definition drop_last (n : nat) (s : string) : string :=
  String.substring 0 (String.length s - n) s.

Definition suffix : string := "/adanet/adanet_weighted_ensemble".

(** The body of the loop of [_best_eval_metrics_fn] over the sorted metric
    names. *)
Definition best_eval_metric (n_candidates : nat)
    (tensors : gmap string dict_utils.Nested)
    (grouped_metrics : gmap string (list MetricOp))
    (eval_metric_ops : Metrics) (metric_name : string) : result Metrics :=
  match grouped_metrics !! metric_name with
  | None => Raise (KeyError metric_name)
  | Some metric_ops =>
      if negb (bool_decide (length metric_ops = n_candidates)) then
        Ok eval_metric_ops
      else
        match tensors !! "best_candidate_index" with
        | Some (dict_utils.Leaf best_candidate_index) =>
            let values := fst <$> metric_ops in
            let ops := snd <$> metric_ops in
            let '(idx, idx_update_op) := tf.metrics_mean best_candidate_index in
            let best_value :=
              tf.getitem (tf.stack values) (tf.cast_int32 idx) in
            let ops := ops ++ [idx_update_op] in
            let best_op := tf.group ops in
            let best_candidate_metric := (best_value, best_op) in
            let eval_metric_ops :=
              <[metric_name := best_candidate_metric]> eval_metric_ops in
            if negb (endswith metric_name suffix) then Ok eval_metric_ops
            else
              let root_metric_name :=
                drop_last (String.length suffix) metric_name in
              if String.eqb root_metric_name "loss" then Ok eval_metric_ops
              else
                Ok (<[root_metric_name := best_candidate_metric]>
                      eval_metric_ops)
        | Some (dict_utils.Inner _) =>
            Raise (TypeError "Expected a tensor, got a mapping")
        | None => Raise (KeyError "best_candidate_index")
        end
  end.

Definition _best_eval_metrics_fn (metric_fns : gmap string MetricFn)
    (candidates : list _Candidate) (kwargs : dict_utils.Flat)
  : result Metrics :=
  let tensors :=
    dict_utils.unflatten_dict kwargs (elements (dom metric_fns)) in
  grouped_metrics ← _group_metric_ops metric_fns tensors;
  for_each (best_eval_metric (length candidates) tensors grouped_metrics)
    (sorted_keys grouped_metrics) ∅.

(** [_create_best_eval_metrics_tuple]: [None] outside [EVAL]; otherwise the
    pair of the function above and the flattened tensors. *)
Definition _create_best_eval_metrics_tuple (candidates : list _Candidate)
    (best_candidate_index : tf.Tensor) (mode : tf.ModeKeys)
    (params : option Params)
  : option ((dict_utils.Flat → result Metrics) * dict_utils.Flat) :=
  if negb (tf.mode_eqb mode tf.EVAL) then None
  else
    let '(metric_fns, tensors) :=
      _collate_metric_fns_and_tensors candidates in
    let batch_size :=
      match params with
      | Some p => if bool_decide (p = ∅) then 1 else default 1 (p !! "batch_size")
      | None => 1
      end in
    let tensors :=
      <["best_candidate_index" :=
          dict_utils.Leaf (tf.tile (tf.stack [best_candidate_index]) batch_size)]>
        tensors in
    let tensors := dict_utils.flatten_dict tensors in
    Some (_best_eval_metrics_fn metric_fns candidates, tensors).

(** *** [build_iteration] *)

(** The report generated for the previous ensemble: its stored
    [(metric_fn, kwargs)] pair is called, when present, and ["adanet_loss"]
    is added. *)
Definition previous_ensemble_report (previous_ensemble_spec : _EnsembleSpec)
  : subnetwork.Report :=
  let metrics :=
    match ensemble.eval_metrics previous_ensemble_spec with
    | Some em => ensemble.metric_fn em (ensemble.kwargs em)
    | None => ∅
    end in
  {| subnetwork.hparams := ∅;
     subnetwork.attributes := ∅;
     subnetwork.metrics :=
       <["adanet_loss" :=
           tf.metrics_mean (ensemble.adanet_loss previous_ensemble_spec)]>
         metrics |}.

(** [subnetwork_report.metrics[metric_name] = metric] for every name of
    [metrics], in sorted order. *)
Definition copy_metric (metrics : Metrics) (report_metrics : Metrics)
    (metric_name : string) : Metrics :=
  match metrics !! metric_name with
  | Some metric => <[metric_name := metric]> report_metrics
  | None => report_metrics
  end.

(** The report generated for a new builder and the ensemble spec built from
    it. *)
Definition builder_report (subnetwork_builder : subnetwork.Builder)
    (ensemble_spec : _EnsembleSpec) : subnetwork.Report :=
  let subnetwork_report :=
    match subnetwork.build_subnetwork_report subnetwork_builder with
    | Some r => r
    | None =>
        {| subnetwork.hparams := ∅;
           subnetwork.attributes := ∅;
           subnetwork.metrics := ∅ |}
    end in
  let report_metrics :=
    match ensemble.eval_metrics ensemble_spec with
    | Some em =>
        let metrics := ensemble.metric_fn em (ensemble.kwargs em) in
        foldl (copy_metric metrics) (subnetwork.metrics subnetwork_report)
          (sorted_keys metrics)
    | None => subnetwork.metrics subnetwork_report
    end in
  {| subnetwork.hparams := subnetwork.hparams subnetwork_report;
     subnetwork.attributes := subnetwork.attributes subnetwork_report;
     subnetwork.metrics :=
       <["adanet_loss" :=
           tf.metrics_mean (ensemble.adanet_loss ensemble_spec)]>
         report_metrics |}.

(** The local variables the loop over the builders updates:
    [seen_builder_names], [candidates], [summaries], [subnetwork_reports]. *)
Record Locals := {
  seen_builder_names : gset string;
  l_candidates : list _Candidate;
  l_summaries : list (option summary._ScopedSummary);
  l_subnetwork_reports : gmap string subnetwork.Report;
}.

Definition ensemble_mode_of (self : _IterationBuilder) (mode : tf.ModeKeys)
    (rebuilding : bool) : tf.ModeKeys :=
  if rebuilding then
    let ensemble_mode := tf.EVAL in
    let ensemble_mode :=
      if tf.mode_eqb mode tf.PREDICT then mode else ensemble_mode in
    if _replicate_ensemble_in_training self && tf.mode_eqb mode tf.TRAIN
    then mode else ensemble_mode
  else mode.

(** The body of [for subnetwork_builder in subnetwork_builders]. *)
Definition build_one (self : _IterationBuilder) (iteration_number : Z)
    (features : Features) (mode : tf.ModeKeys) (labels : option tf.Tensor)
    (previous_ensemble_spec : option _EnsembleSpec) (rebuilding : bool)
    (params : option Params) (iteration_step_tensor : tf.Tensor)
    (st : Locals) (subnetwork_builder : subnetwork.Builder)
  : result Locals :=
  let ensemble_mode := ensemble_mode_of self mode rebuilding in
  let training := tf.mode_eqb mode tf.TRAIN in
  let skip_summaries := tf.mode_eqb mode tf.PREDICT in
  if bool_decide (subnetwork.name subnetwork_builder ∈ seen_builder_names st)
  then
    Raise (ValueError ("Two ensembles have the same name '"
                       +:+ subnetwork.name subnetwork_builder +:+ "'"))
  else
    let seen :=
      {[subnetwork.name subnetwork_builder]} ∪ seen_builder_names st in
    let ensemble_name :=
      "t" +:+ pretty iteration_number +:+ "_"
      +:+ subnetwork.name subnetwork_builder in
    let summary :=
      {| summary.scope := ensemble_name;
         summary.skip_summary := skip_summaries || rebuilding |} in
    let ensemble_spec :=
      append_new_subnetwork (_ensemble_builder self) ensemble_name
        previous_ensemble_spec iteration_number subnetwork_builder summary
        features ensemble_mode iteration_step_tensor labels params in
    let candidate :=
      build_candidate (_candidate_builder self) ensemble_spec training
        iteration_step_tensor (Some summary) false in
    let subnetwork_reports :=
      if negb (tf.mode_eqb mode tf.PREDICT) then
        <[subnetwork.name subnetwork_builder :=
            builder_report subnetwork_builder ensemble_spec]>
          (l_subnetwork_reports st)
      else l_subnetwork_reports st in
    Ok {| seen_builder_names := seen;
          l_candidates := l_candidates st ++ [candidate];
          l_summaries := l_summaries st ++ [Some summary];
          l_subnetwork_reports := subnetwork_reports |}.

(** The local variables before the loop: empty, or holding the previous
    best ensemble as first candidate. *)
Definition initial_locals (self : _IterationBuilder) (mode : tf.ModeKeys)
    (previous_ensemble_summary : option summary._ScopedSummary)
    (previous_ensemble_spec : option _EnsembleSpec)
    (iteration_step_tensor : tf.Tensor) : Locals :=
  match previous_ensemble_spec with
  | Some prev =>
      let previous_best_candidate :=
        build_candidate (_candidate_builder self) prev
          (tf.mode_eqb mode tf.TRAIN) iteration_step_tensor
          previous_ensemble_summary true in
      {| seen_builder_names := {[ensemble.name prev]};
         l_candidates := [previous_best_candidate];
         l_summaries := [previous_ensemble_summary];
         l_subnetwork_reports :=
           if tf.mode_eqb mode tf.EVAL
           then {["previous_ensemble" := previous_ensemble_report prev]}
           else ∅ |}
  | None =>
      {| seen_builder_names := ∅;
         l_candidates := [];
         l_summaries := [];
         l_subnetwork_reports := ∅ |}
  end.

(** The loop collecting the training hooks of the candidates. *)
Definition collect_hooks (acc : list string * list string) (c : _Candidate)
  : result (list string * list string) :=
  let '(training_chief_hooks, training_hooks) := acc in
  let spec := candidate.ensemble_spec c in
  match ensemble.subnetwork_train_op spec with
  | None => Ok acc
  | Some sub =>
      match ensemble.ensemble_train_op spec with
      | None =>
          Raise (AttributeError
                   "'NoneType' object has no attribute 'chief_hooks'")
      | Some ens =>
          Ok (training_chief_hooks
              ++ default [] (subnetwork.chief_hooks sub)
              ++ default [] (subnetwork.chief_hooks ens),
              training_hooks
              ++ default [] (subnetwork.hooks sub)
              ++ default [] (subnetwork.hooks ens))
      end
  end.

Definition summary_object (s : option summary._ScopedSummary) : PyObject :=
  match s with
  | Some s => PySummary s
  | None => PyNone
  end.

(** The variable scope of an iteration, and its step variable. *)
Definition iteration_scope (iteration_number : Z) : string :=
  "iteration_" +:+ pretty iteration_number +:+ "/".

Definition build_iteration (self : _IterationBuilder) (iteration_number : Z)
    (subnetwork_builders : list subnetwork.Builder) (features : Features)
    (mode : tf.ModeKeys) (labels : option tf.Tensor)
    (previous_ensemble_summary : option summary._ScopedSummary)
    (previous_ensemble_spec : option _EnsembleSpec) (rebuilding : bool)
    (params : option Params) : result _Iteration :=
  if bool_decide (subnetwork_builders = []) then
    Raise (ValueError "Each iteration must have at least one Builder.")
  else
    let scope := iteration_scope iteration_number in
    let iteration_step :=
      tf.get_variable (scope +:+ "step") (tf.zeros_initializer tf.int64) in
    let iteration_step_tensor := tf.convert_to_tensor iteration_step in
    st ← for_each
           (build_one self iteration_number features mode labels
              previous_ensemble_spec rebuilding params iteration_step_tensor)
           subnetwork_builders
           (initial_locals self mode previous_ensemble_summary
              previous_ensemble_spec iteration_step_tensor);
    let candidates := l_candidates st in
    let best_candidate_index := _best_candidate_index candidates in
    best_predictions ← _best_predictions candidates best_candidate_index;
    best_loss ← _best_loss candidates best_candidate_index mode;
    let best_eval_metrics :=
      _create_best_eval_metrics_tuple candidates best_candidate_index mode
        params in
    best_export_outputs ←
      _best_export_outputs candidates best_candidate_index mode
        best_predictions;
    let is_over_var_template : Template :=
      λ _, _is_over_var (scope +:+ "is_over_var_fn/") in
    hooks ← for_each collect_hooks candidates ([], []);
    eval_metric_ops ←
      match best_eval_metrics with
      | Some (metric_fn, kwargs) => Some <$> metric_fn kwargs
      | None => Ok None
      end;
    train_op ←
      _create_train_op candidates mode iteration_step is_over_var_template;
    let estimator_spec :=
      {| estimator.mode := mode;
         estimator.predictions := best_predictions;
         estimator.loss := best_loss;
         estimator.train_op := train_op;
         estimator.eval_metric_ops := eval_metric_ops;
         estimator.export_outputs := best_export_outputs;
         estimator.training_chief_hooks := hooks.1;
         estimator.training_hooks := hooks.2 |} in
    _Iteration__new__ (PyInt iteration_number)
      (PyList (PyCandidate <$> candidates))
      (PyEstimatorSpec estimator_spec)
      (PyTensor best_candidate_index)
      (PyList (summary_object <$> l_summaries st))
      (PyFunction is_over_var_template)
      (PyDict (PyReport <$> l_subnetwork_reports st))
      (PyTensor iteration_step_tensor).

(** * Vocabulary of the statements *)

(** [i] is the position of the minimum of [qs], the earliest one if the
    minimum occurs more than once. *)
Definition leftmost_min (qs : list Q) (i : nat) : Prop :=
  ∃ qi, qs !! i = Some qi
        ∧ (∀ j qj, qs !! j = Some qj → (qi <= qj)%Q)
        ∧ (∀ j qj, (j < i)%nat → qs !! j = Some qj → (qi < qj)%Q).

(** The values the candidates' [adanet_loss] tensors take in one run. *)
Definition adanet_losses_at (w : tf.World) (s : tf.Store)
    (candidates : list _Candidate) : option (list Q) :=
  mapM (λ c, tf.eval w s (candidate.adanet_loss c) ≫= tf.as_float) candidates.

(** A world without collaborators: opaque nodes have no value. *)
Definition empty_world : tf.World :=
  {| tf.tensor_value := λ _ _, None;
     tf.op_effect := λ _ _, None;
     tf.mean_value := λ _ _, None;
     tf.mean_update := λ _ _, None |}.

(** A candidate whose losses are the constant [q], with no train ops,
    metrics or export outputs. *)
Definition candidate_with_loss (q : Q) : _Candidate :=
  {| candidate.ensemble_spec :=
       {| ensemble.name := "c";
          ensemble.loss := Some (tf.constant (tf.VFloat q));
          ensemble.adanet_loss := tf.constant (tf.VFloat q);
          ensemble.predictions := PredTensor (tf.constant (tf.VFloat q));
          ensemble.eval_metrics := None;
          ensemble.export_outputs := None;
          ensemble.subnetwork_train_op := None;
          ensemble.ensemble_train_op := None |};
     candidate.adanet_loss := tf.constant (tf.VFloat q);
     candidate.is_training := tf.constant (tf.VBool true) |}.

(** The conditions [_Iteration.__new__] is documented to enforce.  An
    integer is an [int] in Python's sense, which includes [bool]. *)
Definition is_integer (x : PyObject) : Prop :=
  (∃ z, x = PyInt z) ∨ (∃ b, x = PyBool b).

Definition is_nonempty_list (x : PyObject) : Prop :=
  ∃ l, x = PyList l ∧ l ≠ [].

Definition is_mapping (x : PyObject) : Prop :=
  ∃ d, x = PyDict d.

Definition valid_iteration_args
    (number candidates estimator_spec best_candidate_index
     subnetwork_reports step : PyObject) : Prop :=
  is_integer number ∧ 0 ≤ int_value number
  ∧ is_nonempty_list candidates
  ∧ estimator_spec ≠ PyNone
  ∧ best_candidate_index ≠ PyNone
  ∧ is_mapping subnetwork_reports
  ∧ step ≠ PyNone.

Definition as_bool (v : tf.Value) : option bool :=
  match v with
  | tf.VBool b => Some b
  | _ => None
  end.

(** The values the candidates' [is_training] tensors take in one run. *)
Definition training_flags_at (w : tf.World) (s : tf.Store)
    (candidates : list _Candidate) : option (list bool) :=
  mapM (λ c, tf.eval w s (candidate.is_training c) ≫= as_bool) candidates.

(** Every candidate's [is_training] is false. *)
Definition all_done (flags : list bool) : bool := forallb negb flags.

(** One training pass on a store: the completion-flag op is run. *)
Definition training_pass (w : tf.World) (candidates : list _Candidate)
    (is_over_var_template : Template) (s : tf.Store) : tf.Store :=
  tf.store (tf.run w (_assign_is_over candidates is_over_var_template) s).

(** Between two passes the other ops and the other workers may change
    everything in the store but the completion flag: the next pass runs on
    an arbitrary store [env] in which the flag is what the last pass left. *)
Definition carry_flag (is_over_var_template : Template)
    (prev env : tf.Store) : tf.Store :=
  let name := tf.var_name (is_over_var_template ()) in
  match prev !! name with
  | Some v => <[name := v]> env
  | None => delete name env
  end.

Definition training_passes (w : tf.World) (candidates : list _Candidate)
    (is_over_var_template : Template) (envs : list tf.Store)
    (s0 : tf.Store) : tf.Store :=
  foldl (λ s env,
           training_pass w candidates is_over_var_template
             (carry_flag is_over_var_template s env))
        s0 envs.

(** A world in which an opaque tensor reads the store entry of its name. *)
Definition store_world : tf.World :=
  {| tf.tensor_value := λ name s, s !! name;
     tf.op_effect := λ _ s, Some s;
     tf.mean_value := λ _ _, None;
     tf.mean_update := λ _ s, Some s |}.

(** A candidate named [n] whose tensors and train ops are opaque nodes
    named after it. *)
Definition opaque_spec (n : string) : _EnsembleSpec :=
  {| ensemble.name := n;
     ensemble.loss := Some (tf.Opaque (n +:+ "/loss"));
     ensemble.adanet_loss := tf.Opaque (n +:+ "/adanet_loss");
     ensemble.predictions := PredTensor (tf.Opaque (n +:+ "/predictions"));
     ensemble.eval_metrics :=
       Some {| ensemble.metric_fn := λ _,
                 {[ "accuracy" :=
                      (tf.Opaque (n +:+ "/accuracy"),
                       tf.OpaqueOp (n +:+ "/accuracy_update")) ]};
               ensemble.kwargs := ∅ |};
     ensemble.export_outputs :=
       Some {[ "serving_default" :=
                 PredictOutput (PredTensor (tf.Opaque (n +:+ "/predictions"))) ]};
     ensemble.subnetwork_train_op :=
       Some {| subnetwork.train_op := tf.OpaqueOp (n +:+ "/subnetwork_train");
               subnetwork.chief_hooks := None;
               subnetwork.hooks := None |};
     ensemble.ensemble_train_op :=
       Some {| subnetwork.train_op := tf.OpaqueOp (n +:+ "/ensemble_train");
               subnetwork.chief_hooks := None;
               subnetwork.hooks := None |} |}.

Definition opaque_candidate (n : string) : _Candidate :=
  {| candidate.ensemble_spec := opaque_spec n;
     candidate.adanet_loss := tf.Opaque (n +:+ "/adanet_loss");
     candidate.is_training := tf.Opaque (n +:+ "/is_training") |}.

Definition example_template : Template :=
  λ _, _is_over_var "iteration_0/is_over_var_fn/".

(** A store for [example_template] and the candidates ["a"] and ["b"]: the
    completion flag and the two training flags. *)
Definition example_store (is_over a_training b_training : bool) : tf.Store :=
  {[ "iteration_0/is_over_var_fn/is_over_var" := tf.VBool is_over;
     "a/is_training" := tf.VBool a_training;
     "b/is_training" := tf.VBool b_training;
     "global_step" := tf.VInt 41;
     "iteration_0/step" := tf.VInt 7 ]}.

(** The train ops one candidate contributes: its subnetwork-level and its
    ensemble-level op, or nothing when it has no subnetwork train op. *)
Definition train_ops_of (c : _Candidate) : list tf.Op :=
  match ensemble.subnetwork_train_op (candidate.ensemble_spec c),
        ensemble.ensemble_train_op (candidate.ensemble_spec c) with
  | Some sub, Some ens => [subnetwork.train_op sub; subnetwork.train_op ens]
  | _, _ => []
  end.

(** Every candidate that has a subnetwork train op also has an ensemble
    train op. *)
Definition train_ops_paired (candidates : list _Candidate) : bool :=
  forallb
    (λ c,
       match ensemble.subnetwork_train_op (candidate.ensemble_spec c),
             ensemble.ensemble_train_op (candidate.ensemble_spec c) with
       | Some _, None => false
       | _, _ => true
       end)
    candidates.

(** The dependency set of the fused train op: the train ops of all the
    candidates, then the completion-flag update. *)
Definition dependency_set (candidates : list _Candidate)
    (is_over_var_template : Template) : list tf.Op :=
  (candidates ≫= train_ops_of)
  ++ [_assign_is_over candidates is_over_var_template].

Definition example_step : tf.Var :=
  tf.get_variable "iteration_0/step" (tf.zeros_initializer tf.int64).

(** Three candidates: a carryover candidate without train ops, and two new
    ones. *)
Definition example_candidates : list _Candidate :=
  [ {| candidate.ensemble_spec :=
         {| ensemble.name := "t0_linear";
            ensemble.loss := Some (tf.Opaque "t0_linear/loss");
            ensemble.adanet_loss := tf.Opaque "t0_linear/adanet_loss";
            ensemble.predictions :=
              PredTensor (tf.Opaque "t0_linear/predictions");
            ensemble.eval_metrics := None;
            ensemble.export_outputs := None;
            ensemble.subnetwork_train_op := None;
            ensemble.ensemble_train_op := None |};
       candidate.adanet_loss := tf.Opaque "t0_linear/adanet_loss";
       candidate.is_training := tf.constant (tf.VBool false) |};
    opaque_candidate "a";
    opaque_candidate "b" ].

(** What [build_iteration] builds for one new builder: the name of the
    ensemble, its summary, its ensemble spec and its candidate. *)
Definition new_ensemble_name (iteration_number : Z)
    (subnetwork_builder : subnetwork.Builder) : string :=
  "t" +:+ pretty iteration_number +:+ "_"
  +:+ subnetwork.name subnetwork_builder.

Definition new_summary (iteration_number : Z) (mode : tf.ModeKeys)
    (rebuilding : bool) (subnetwork_builder : subnetwork.Builder)
  : summary._ScopedSummary :=
  {| summary.scope := new_ensemble_name iteration_number subnetwork_builder;
     summary.skip_summary := tf.mode_eqb mode tf.PREDICT || rebuilding |}.

Definition new_ensemble_spec (self : _IterationBuilder) (iteration_number : Z)
    (features : Features) (mode : tf.ModeKeys) (labels : option tf.Tensor)
    (previous_ensemble_spec : option _EnsembleSpec) (rebuilding : bool)
    (params : option Params) (iteration_step_tensor : tf.Tensor)
    (subnetwork_builder : subnetwork.Builder) : _EnsembleSpec :=
  append_new_subnetwork (_ensemble_builder self)
    (new_ensemble_name iteration_number subnetwork_builder)
    previous_ensemble_spec iteration_number subnetwork_builder
    (new_summary iteration_number mode rebuilding subnetwork_builder)
    features (ensemble_mode_of self mode rebuilding) iteration_step_tensor
    labels params.

Definition new_candidate (self : _IterationBuilder) (iteration_number : Z)
    (features : Features) (mode : tf.ModeKeys) (labels : option tf.Tensor)
    (previous_ensemble_spec : option _EnsembleSpec) (rebuilding : bool)
    (params : option Params) (iteration_step_tensor : tf.Tensor)
    (subnetwork_builder : subnetwork.Builder) : _Candidate :=
  build_candidate (_candidate_builder self)
    (new_ensemble_spec self iteration_number features mode labels
       previous_ensemble_spec rebuilding params iteration_step_tensor
       subnetwork_builder)
    (tf.mode_eqb mode tf.TRAIN) iteration_step_tensor
    (Some (new_summary iteration_number mode rebuilding subnetwork_builder))
    false.

(** The step variable of iteration [iteration_number], its tensor, and the
    template of its completion flag. *)
Definition iteration_step_of (iteration_number : Z) : tf.Var :=
  tf.get_variable (iteration_scope iteration_number +:+ "step")
    (tf.zeros_initializer tf.int64).

Definition iteration_step_tensor_of (iteration_number : Z) : tf.Tensor :=
  tf.convert_to_tensor (iteration_step_of iteration_number).

Definition is_over_template_of (iteration_number : Z) : Template :=
  λ _, _is_over_var (iteration_scope iteration_number +:+ "is_over_var_fn/").

(** The local variables after one more builder whose name was not seen. *)
Definition add_builder (self : _IterationBuilder) (iteration_number : Z)
    (features : Features) (mode : tf.ModeKeys) (labels : option tf.Tensor)
    (previous_ensemble_spec : option _EnsembleSpec) (rebuilding : bool)
    (params : option Params) (iteration_step_tensor : tf.Tensor)
    (st : Locals) (subnetwork_builder : subnetwork.Builder) : Locals :=
  {| seen_builder_names :=
       {[subnetwork.name subnetwork_builder]} ∪ seen_builder_names st;
     l_candidates :=
       l_candidates st
       ++ [new_candidate self iteration_number features mode labels
             previous_ensemble_spec rebuilding params iteration_step_tensor
             subnetwork_builder];
     l_summaries :=
       l_summaries st
       ++ [Some (new_summary iteration_number mode rebuilding
                   subnetwork_builder)];
     l_subnetwork_reports :=
       if negb (tf.mode_eqb mode tf.PREDICT) then
         <[subnetwork.name subnetwork_builder :=
             builder_report subnetwork_builder
               (new_ensemble_spec self iteration_number features mode labels
                  previous_ensemble_spec rebuilding params
                  iteration_step_tensor subnetwork_builder)]>
           (l_subnetwork_reports st)
       else l_subnetwork_reports st |}.

(** The message of the naming-collision error. *)
Definition same_name_error (n : string) : PyError :=
  ValueError ("Two ensembles have the same name '" +:+ n +:+ "'").

(** The candidates of an iteration: the previous best, when there is one,
    then one candidate per builder. *)
Definition locals_of (self : _IterationBuilder) (iteration_number : Z)
    (subnetwork_builders : list subnetwork.Builder) (features : Features)
    (mode : tf.ModeKeys) (labels : option tf.Tensor)
    (previous_ensemble_summary : option summary._ScopedSummary)
    (previous_ensemble_spec : option _EnsembleSpec) (rebuilding : bool)
    (params : option Params) : Locals :=
  foldl
    (add_builder self iteration_number features mode labels
       previous_ensemble_spec rebuilding params
       (iteration_step_tensor_of iteration_number))
    (initial_locals self mode previous_ensemble_summary
       previous_ensemble_spec (iteration_step_tensor_of iteration_number))
    subnetwork_builders.

(** The eval metric ops [build_iteration] puts in the estimator spec. *)
Definition eval_metric_ops_of (candidates : list _Candidate)
    (best_candidate_index : tf.Tensor) (mode : tf.ModeKeys)
    (params : option Params) : result (option Metrics) :=
  match _create_best_eval_metrics_tuple candidates best_candidate_index mode
          params with
  | Some (metric_fn, kwargs) => Some <$> metric_fn kwargs
  | None => Ok None
  end.

(** An iteration builder whose collaborators name every tensor and op after
    the ensemble they belong to. *)
Definition example_iteration_builder : _IterationBuilder :=
  {| _candidate_builder :=
       {| build_candidate spec _ _ _ _ :=
            {| candidate.ensemble_spec := spec;
               candidate.adanet_loss := ensemble.adanet_loss spec;
               candidate.is_training :=
                 tf.Opaque (ensemble.name spec +:+ "/is_training") |} |};
     _ensemble_builder :=
       {| append_new_subnetwork ensemble_name _ _ _ _ _ _ _ _ _ :=
            opaque_spec ensemble_name |};
     _replicate_ensemble_in_training := false |}.

Definition example_subnetwork_builder (n : string) : subnetwork.Builder :=
  {| subnetwork.name := n; subnetwork.build_subnetwork_report := None |}.

(** The previous best ensemble of the examples, named ["linear"]: no train
    ops, one metric. *)
Definition example_previous_ensemble : _EnsembleSpec :=
  {| ensemble.name := "linear";
     ensemble.loss := Some (tf.Opaque "linear/loss");
     ensemble.adanet_loss := tf.Opaque "linear/adanet_loss";
     ensemble.predictions := PredTensor (tf.Opaque "linear/predictions");
     ensemble.eval_metrics :=
       Some {| ensemble.metric_fn := λ _,
                 {[ "accuracy" :=
                      (tf.Opaque "linear/accuracy",
                       tf.OpaqueOp "linear/accuracy_update") ]};
               ensemble.kwargs := ∅ |};
     ensemble.export_outputs :=
       Some {[ "serving_default" :=
                 PredictOutput (PredTensor (tf.Opaque "linear/predictions")) ]};
     ensemble.subnetwork_train_op := None;
     ensemble.ensemble_train_op := None |}.

(** The metrics a builder's own report hook supplies (none when it returns
    [None]), and the metrics a candidate's ensemble spec supplies through
    its [(metric_fn, kwargs)] pair (none when it has no pair). *)
Definition hook_metrics (subnetwork_builder : subnetwork.Builder) : Metrics :=
  match subnetwork.build_subnetwork_report subnetwork_builder with
  | Some r => subnetwork.metrics r
  | None => ∅
  end.

Definition own_metrics (ensemble_spec : _EnsembleSpec) : Metrics :=
  match ensemble.eval_metrics ensemble_spec with
  | Some em => ensemble.metric_fn em (ensemble.kwargs em)
  | None => ∅
  end.

(** Some stored report is the one of the previous ensemble [prev]: it
    carries the metrics of its [(metric_fn, kwargs)] pair and the mean of
    its [adanet_loss]. *)
Definition carryover_has_report (prev : _EnsembleSpec)
    (reports : gmap string subnetwork.Report) : Prop :=
  ∃ k r, reports !! k = Some r
         ∧ subnetwork.metrics r
           = <["adanet_loss" := tf.metrics_mean (ensemble.adanet_loss prev)]>
               (own_metrics prev).

(** The names of the candidates: those of their ensemble specs. *)
Definition candidate_names (candidates : list _Candidate) : gset string :=
  list_to_set ((ensemble.name ∘ candidate.ensemble_spec) <$> candidates).

(** The mean of a numeric value: of a scalar, the scalar; of an array, the
    mean of the means of its elements. *)
Fixpoint value_sum_count (v : tf.Value) : option (Q * Z) :=
  match v with
  | tf.VBool _ => None
  | tf.VInt z => Some (inject_Z z, 1)
  | tf.VFloat q => Some (q, 1)
  | tf.VArray l =>
      foldr (λ x acc,
               match value_sum_count x, acc with
               | Some (q, n), Some (q', n') => Some (Qred (q + q'), n + n')
               | _, _ => None
               end)
            (Some (0%Q, 0)) l
  end.

Definition value_mean (v : tf.Value) : option tf.Value :=
  match value_sum_count v with
  | Some (q, n) => if n =? 0 then None else Some (tf.VFloat (Qred (q / inject_Z n)))
  | None => None
  end.

(** A world in which every batch is the same: the value of a streaming mean
    is the mean of the tensor on one batch, and the update ops change
    nothing.  Opaque tensors have no value in it. *)
Definition steady_world : tf.World :=
  {| tf.tensor_value := λ _ _, None;
     tf.op_effect := λ _ s, Some s;
     tf.mean_value := λ t s, tf.eval empty_world s t ≫= value_mean;
     tf.mean_update := λ _ s, Some s |}.

(** Candidate number [i] of the example with eleven candidates: its
    ["accuracy"] metric is the constant [i], and only candidate 2 has loss
    0, the others have loss 1. *)
Definition numbered_candidate (i : nat) : _Candidate :=
  let loss := tf.constant (tf.VFloat (if Nat.eqb i 2 then 0 else 1)) in
  {| candidate.ensemble_spec :=
       {| ensemble.name := "c" +:+ pretty i;
          ensemble.loss := Some loss;
          ensemble.adanet_loss := loss;
          ensemble.predictions := PredTensor loss;
          ensemble.eval_metrics :=
            Some {| ensemble.metric_fn := λ _,
                      {[ "accuracy" :=
                           (tf.constant (tf.VFloat (inject_Z (Z.of_nat i))),
                            tf.OpaqueOp ("update_" +:+ pretty i)) ]};
                    ensemble.kwargs := ∅ |};
          ensemble.export_outputs := None;
          ensemble.subnetwork_train_op := None;
          ensemble.ensemble_train_op := None |};
     candidate.adanet_loss := loss;
     candidate.is_training := tf.constant (tf.VBool false) |}.

Definition eleven_candidates : list _Candidate :=
  numbered_candidate <$> seq 0 11.

(** * Properties *)

(** ** Results and loops *)

Lemma bind_Ok {A B} (r : result A) (k : A → result B) (b : B) :
  r ≫= k = Ok b → ∃ a, r = Ok a ∧ k a = Ok b.
Proof. destruct r as [a|e]; simpl; [eauto | discriminate]. Qed.

Lemma bind_Ok_l {A B} (a : A) (k : A → result B) : Ok a ≫= k = k a.
Proof. done. Qed.

Lemma fmap_Ok {A B} (f : A → B) (r : result A) (b : B) :
  f <$> r = Ok b → ∃ a, r = Ok a ∧ b = f a.
Proof.
  destruct r as [a|e]; simpl; [| discriminate].
  intros [= <-]. eauto.
Qed.

Lemma for_each_app {A S} (body : S → A → result S) (l1 l2 : list A) (s : S) :
  for_each body (l1 ++ l2) s = for_each body l1 s ≫= for_each body l2.
Proof.
  revert s. induction l1 as [|x l1 IH]; intros s; simpl; [done |].
  destruct (body s x) as [s'|e]; simpl; [apply IH | done].
Qed.

(** A loop whose body never raises is a left fold. *)
Lemma for_each_total {A S} (body : S → A → result S) (f : S → A → S)
    (l : list A) (s : S) :
  (∀ s x, body s x = Ok (f s x)) → for_each body l s = Ok (foldl f s l).
Proof.
  intros Hf. revert s. induction l as [|x l IH]; intros s; simpl; [done |].
  rewrite Hf. simpl. apply IH.
Qed.

Ltac inv_bind H a Ha :=
  apply bind_Ok in H as (a & Ha & H); cbv beta zeta in H.

(** ** Sorted keys *)

Lemma elem_of_sorted (keys : list string) (k : string) :
  k ∈ sorted keys ↔ k ∈ keys.
Proof. unfold sorted. by rewrite merge_sort_Permutation. Qed.

Lemma elem_of_sorted_keys {V} (d : gmap string V) (k : string) :
  k ∈ sorted_keys d ↔ is_Some (d !! k).
Proof.
  unfold sorted_keys. rewrite elem_of_sorted, elem_of_elements.
  apply elem_of_dom.
Qed.

(** ** The leftmost minimum *)

Lemma Qltb_true (x y : Q) : tf.Qltb x y = true ↔ (x < y)%Q.
Proof.
  unfold tf.Qltb. rewrite negb_true_iff, <- not_true_iff_false, Qle_bool_iff.
  split; [apply Qnot_le_lt | apply Qlt_not_le].
Qed.

Lemma Qltb_false (x y : Q) : tf.Qltb x y = false ↔ (y <= x)%Q.
Proof.
  unfold tf.Qltb. rewrite negb_false_iff. apply Qle_bool_iff.
Qed.

(** Invariant of the scan: [best] is the leftmost minimum of the prefix
    already seen. *)
Lemma argmin_scan_spec (seen rest : list Q) (best : Q) (besti : nat) :
  leftmost_min seen besti → seen !! besti = Some best →
  leftmost_min (seen ++ rest)
    (tf.argmin_scan best besti (length seen) rest).
Proof.
  revert seen best besti.
  induction rest as [|x rest IH]; intros seen best besti Hmin Hbest; simpl.
  { by rewrite app_nil_r. }
  destruct Hmin as (q & Hq & Hle & Hlt).
  assert (q = best) as -> by congruence.
  replace (seen ++ x :: rest) with ((seen ++ [x]) ++ rest)
    by (by rewrite <- app_assoc).
  replace (S (length seen)) with (length (seen ++ [x]))
    by (rewrite length_app; simpl; lia).
  destruct (tf.Qltb x best) eqn:Hcmp.
  - apply Qltb_true in Hcmp.
    apply IH; [| by rewrite lookup_app_r, Nat.sub_diag by lia].
    exists x. split; [by rewrite lookup_app_r, Nat.sub_diag by lia |].
    split.
    + intros j qj Hj. apply lookup_app_Some in Hj as [Hj | [_ Hj]].
      * apply Qlt_le_weak. eapply Qlt_le_trans; [exact Hcmp | eauto].
      * apply list_lookup_singleton_Some in Hj as [_ <-]. apply Qle_refl.
    + intros j qj Hji Hj. rewrite lookup_app_l in Hj by done.
      eapply Qlt_le_trans; [exact Hcmp | eauto].
  - apply Qltb_false in Hcmp.
    apply lookup_lt_Some in Hbest as Hlen.
    apply IH; [| by rewrite lookup_app_l].
    exists best. split; [by rewrite lookup_app_l |].
    split.
    + intros j qj Hj. apply lookup_app_Some in Hj as [Hj | [_ Hj]]; [eauto |].
      by apply list_lookup_singleton_Some in Hj as [_ <-].
    + intros j qj Hji Hj. rewrite lookup_app_l in Hj by lia. eauto.
Qed.

Lemma argmin_list_spec (qs : list Q) :
  qs ≠ [] → ∃ i, tf.argmin_list qs = Some i ∧ leftmost_min qs i.
Proof.
  destruct qs as [|x qs]; [done | intros _].
  exists (tf.argmin_scan x 0%nat 1%nat qs). split; [done |].
  apply (argmin_scan_spec [x] qs x 0%nat); [| done].
  exists x. split; [done |]. split.
  - intros [|j] qj Hj; simplify_eq/=. apply Qle_refl.
  - intros j qj Hj. lia.
Qed.

Lemma leftmost_min_lt (qs : list Q) (i : nat) :
  leftmost_min qs i → (i < length qs)%nat.
Proof. intros (q & Hq & _). by eapply lookup_lt_Some. Qed.

Lemma mapM_fmap {A B C} (f : B → option C) (g : A → B) (l : list A) :
  mapM f (g <$> l) = mapM (f ∘ g) l.
Proof.
  induction l as [|x l IH]; [done |].
  rewrite fmap_cons.
  change (mapM f (g x :: (g <$> l)))
    with (f (g x) ≫= λ y, mapM f (g <$> l) ≫= λ k, mret (y :: k)).
  by rewrite IH.
Qed.

Lemma mapM_length {A B} (f : A → option B) (l : list A) (k : list B) :
  mapM f l = Some k → length k = length l.
Proof. intros H. by apply mapM_Some, Forall2_length in H. Qed.

(** ** C1: the best candidate index *)

(** C1. For a candidate list of length [n >= 1] whose losses evaluate to
    numbers, the tensor built by [_best_candidate_index] evaluates to an
    index in [[0, n)] that is the position of the minimum [adanet_loss],
    the leftmost one on ties; losses [[0.5, 0.3, 0.3]] give index [1]. *)
Theorem best_candidate_index_leftmost_min :
  (∀ w s candidates qs,
     (1 ≤ length candidates)%nat →
     adanet_losses_at w s candidates = Some qs →
     ∃ i : nat,
       tf.eval w s (_best_candidate_index candidates)
       = Some (tf.VInt (Z.of_nat i))
       ∧ 0 ≤ Z.of_nat i < Z.of_nat (length candidates)
       ∧ leftmost_min qs i)
  ∧ (∀ w s,
       tf.eval w s
         (_best_candidate_index
            (candidate_with_loss <$> [1 # 2; 3 # 10; 3 # 10]%Q))
       = Some (tf.VInt 1)).
Proof.
  split; [| done].
  intros w s candidates qs Hlen Hqs.
  apply mapM_length in Hqs as Hlenqs.
  unfold _best_candidate_index. case_bool_decide as Hone.
  - exists 0%nat. split; [done |]. split; [lia |].
    destruct qs as [|q [|??]]; simpl in Hlenqs; try lia.
    exists q. split; [done |]. split.
    + intros [|j] qj Hj; simplify_eq/=. apply Qle_refl.
    + intros j qj Hj. lia.
  - destruct (argmin_list_spec qs) as (i & Hi & Hmin).
    { intros ->. simpl in Hlenqs. lia. }
    exists i. split; [| split; [| done]].
    + change (tf.eval w s (tf.argmin (candidate.adanet_loss <$> candidates)))
        with (mapM (λ t, tf.eval w s t ≫= tf.as_float)
                (candidate.adanet_loss <$> candidates)
              ≫= λ qs, tf.argmin_list qs ≫= λ i, Some (tf.VInt (Z.of_nat i))).
      rewrite mapM_fmap. unfold adanet_losses_at in Hqs. unfold compose.
      rewrite Hqs. simpl. by rewrite Hi.
    + apply leftmost_min_lt in Hmin. lia.
Qed.

Lemma best_candidate_index_leftmost_min_witness :
  let candidates := candidate_with_loss <$> [1 # 2; 3 # 10; 3 # 10]%Q in
  ∃ i : nat,
    tf.eval empty_world ∅ (_best_candidate_index candidates)
    = Some (tf.VInt (Z.of_nat i))
    ∧ 0 ≤ Z.of_nat i < Z.of_nat (length candidates)
    ∧ leftmost_min [1 # 2; 3 # 10; 3 # 10]%Q i.
Proof.
  intros candidates.
  apply (proj1 best_candidate_index_leftmost_min empty_world ∅ candidates).
  - simpl. lia.
  - reflexivity.
Defined.

(** ** C9: validation of [_Iteration] *)

Lemma isinstance_int_spec (x : PyObject) :
  isinstance_int x = true ↔ is_integer x.
Proof.
  unfold is_integer. split.
  - destruct x; simpl; intros; try discriminate; eauto.
  - by intros [[z ->] | [b ->]].
Qed.

Lemma nonempty_list_spec (x : PyObject) :
  negb (isinstance_list x) || negb (truthy x) = false ↔ is_nonempty_list x.
Proof.
  unfold is_nonempty_list. split.
  - destruct x; simpl; intros H; try discriminate.
    rewrite negb_false_iff in H. case_bool_decide; [done | eauto].
  - intros (l & -> & Hl). simpl. by rewrite bool_decide_eq_false_2.
Qed.

Lemma isinstance_dict_spec (x : PyObject) :
  isinstance_dict x = true ↔ is_mapping x.
Proof.
  unfold is_mapping. split.
  - destruct x; simpl; intros; try discriminate; eauto.
  - by intros [d ->].
Qed.

Lemma is_None_spec (x : PyObject) : is_None x = false ↔ x ≠ PyNone.
Proof. destruct x; simpl; split; congruence. Qed.

(** C9. [_Iteration.__new__] returns the record with all fields as given
    when [number] is a non-negative integer (zero included), [candidates]
    is a non-empty list, [estimator_spec], [best_candidate_index] and
    [step] are not [None] and [subnetwork_reports] is a mapping; in every
    other case it raises a [ValueError] and no record is returned. *)
Theorem iteration_new_validated
    (number candidates estimator_spec best_candidate_index summaries
     is_over_fn subnetwork_reports step : PyObject) :
  (valid_iteration_args number candidates estimator_spec
     best_candidate_index subnetwork_reports step →
   _Iteration__new__ number candidates estimator_spec best_candidate_index
     summaries is_over_fn subnetwork_reports step
   = Ok {| number := number;
           candidates := candidates;
           estimator_spec := estimator_spec;
           best_candidate_index := best_candidate_index;
           summaries := summaries;
           is_over_fn := is_over_fn;
           subnetwork_reports := subnetwork_reports;
           step := step |})
  ∧ (¬ valid_iteration_args number candidates estimator_spec
         best_candidate_index subnetwork_reports step →
     ∃ msg,
       _Iteration__new__ number candidates estimator_spec
         best_candidate_index summaries is_over_fn subnetwork_reports step
       = Raise (ValueError msg)).
Proof.
  unfold valid_iteration_args, _Iteration__new__.
  rewrite <- isinstance_int_spec, <- nonempty_list_spec,
    <- isinstance_dict_spec, <- !is_None_spec, <- Z.ltb_ge.
  destruct (isinstance_int number); simpl;
    [| split; [intros [? _]; discriminate | eauto]].
  destruct (int_value number <? 0);
    [split; [intros (_ & ? & _); discriminate | eauto] |].
  destruct (negb (isinstance_list candidates) || negb (truthy candidates));
    [split; [intros (_ & _ & ? & _); discriminate | eauto] |].
  destruct (is_None estimator_spec);
    [split; [intros (_ & _ & _ & ? & _); discriminate | eauto] |].
  destruct (is_None best_candidate_index);
    [split; [intros (_ & _ & _ & _ & ? & _); discriminate | eauto] |].
  destruct (isinstance_dict subnetwork_reports); simpl;
    [| split; [intros (_ & _ & _ & _ & _ & ? & _); discriminate | eauto]].
  destruct (is_None step);
    [split; [intros (_ & _ & _ & _ & _ & _ & ?); discriminate | eauto] |].
  split; [done |]. intros H. destruct H. done.
Qed.

Lemma iteration_new_validated_witness :
  _Iteration__new__ (PyInt 0) (PyList [PyCandidate (candidate_with_loss 0)])
    (PyStr "estimator_spec") (PyTensor (tf.constant (tf.VInt 0)))
    PyNone PyNone (PyDict ∅) (PyTensor (tf.Opaque "step"))
  = Ok {| number := PyInt 0;
          candidates := PyList [PyCandidate (candidate_with_loss 0)];
          estimator_spec := PyStr "estimator_spec";
          best_candidate_index := PyTensor (tf.constant (tf.VInt 0));
          summaries := PyNone;
          is_over_fn := PyNone;
          subnetwork_reports := PyDict ∅;
          step := PyTensor (tf.Opaque "step") |}.
Proof.
  apply (proj1 (iteration_new_validated (PyInt 0)
                  (PyList [PyCandidate (candidate_with_loss 0)])
                  (PyStr "estimator_spec") (PyTensor (tf.constant (tf.VInt 0)))
                  PyNone PyNone (PyDict ∅) (PyTensor (tf.Opaque "step")))).
  unfold valid_iteration_args, is_integer, is_nonempty_list, is_mapping.
  simpl. repeat split; try lia; try done; eauto.
Defined.

(** ** C2: the completion flag *)

(** The predicate built by [_assign_is_over] evaluates to the conjunction of
    the negated training flags. *)
Lemma eval_is_over_fold (w : tf.World) (s : tf.Store)
    (candidates : list _Candidate) (flags : list bool)
    (acc : tf.Tensor) (b : bool) :
  tf.eval w s acc = Some (tf.VBool b) →
  training_flags_at w s candidates = Some flags →
  tf.eval w s
    (foldl (λ is_over c,
              tf.logical_and is_over
                (tf.logical_not (candidate.is_training c)))
       acc candidates)
  = Some (tf.VBool (b && all_done flags)).
Proof.
  intros Hacc Hflags. apply mapM_Some in Hflags.
  revert acc b Hacc.
  induction Hflags as [|c x candidates flags Hc _ IH]; intros acc b Hacc.
  - simpl. by rewrite andb_true_r.
  - destruct (tf.eval w s (candidate.is_training c)) as [[y| | |]|] eqn:Hy;
      simplify_eq/=.
    rewrite (IH _ (b && negb x)).
    + by rewrite andb_assoc.
    + simpl. by rewrite Hacc, Hy.
Qed.

(** Whatever the predicate evaluates to, a pass leaves a true flag true. *)
Lemma training_pass_keeps_true (w : tf.World) (candidates : list _Candidate)
    (is_over_var_template : Template) (s : tf.Store) :
  s !! tf.var_name (is_over_var_template ()) = Some (tf.VBool true) →
  training_pass w candidates is_over_var_template s
    !! tf.var_name (is_over_var_template ())
  = Some (tf.VBool true).
Proof.
  intros Hs. unfold training_pass, tf.run, _assign_is_over. cbn [tf.exec].
  destruct (tf.eval w s _) as [[[|]| | |]|]; try done.
  rewrite Hs. cbn [tf.store]. by rewrite lookup_insert_eq.
Qed.

(** C2. The flag variable is initialised to false.  A pass on a store where
    the candidates' [is_training] tensors take the values [flags] runs the
    assignment of [True] if and only if all of them are false, and
    otherwise runs the no-op and leaves the store as it was.  Over any
    sequence of passes, on arbitrary stores, a flag that is true stays
    true. *)
Theorem is_over_monotone :
  (∀ scope, tf.initial_value (_is_over_var scope) = tf.VBool false)
  ∧ (∀ w candidates is_over_var_template s flags old,
       s !! tf.var_name (is_over_var_template ()) = Some old →
       training_flags_at w s candidates = Some flags →
       tf.run w (_assign_is_over candidates is_over_var_template) s
       = if all_done flags then
           tf.mkRun tf.Completed
             (<[tf.var_name (is_over_var_template ()) := tf.VBool true]> s)
             [tf.assign (is_over_var_template ()) (tf.VBool true)
                "assign_is_over"]
         else
           tf.mkRun tf.Completed s [tf.no_op "noassign_is_over"])
  ∧ (∀ w candidates is_over_var_template envs s0,
       s0 !! tf.var_name (is_over_var_template ()) = Some (tf.VBool true) →
       training_passes w candidates is_over_var_template envs s0
         !! tf.var_name (is_over_var_template ())
       = Some (tf.VBool true)).
Proof.
  split; [done |]. split.
  - intros w candidates tmpl s flags old Hold Hflags.
    unfold tf.run, _assign_is_over.
    cbn [tf.exec].
    erewrite (eval_is_over_fold w s candidates flags _ true);
      [| done | exact Hflags].
    rewrite andb_true_l. destruct (all_done flags); [| done].
    by rewrite Hold.
  - intros w candidates tmpl envs.
    induction envs as [|env envs IH]; intros s0 Hs0; [done |].
    simpl. apply IH. apply training_pass_keeps_true.
    unfold carry_flag. rewrite Hs0. by rewrite lookup_insert_eq.
Qed.

Lemma is_over_monotone_witness :
  tf.run store_world
    (_assign_is_over [opaque_candidate "a"; opaque_candidate "b"]
       example_template)
    (example_store false false false)
  = (if all_done [false; false] then
       tf.mkRun tf.Completed
         (<[tf.var_name (example_template ()) := tf.VBool true]>
            (example_store false false false))
         [tf.assign (example_template ()) (tf.VBool true) "assign_is_over"]
     else
       tf.mkRun tf.Completed (example_store false false false)
         [tf.no_op "noassign_is_over"])
  ∧ training_passes store_world
      [opaque_candidate "a"; opaque_candidate "b"] example_template
      [example_store false true false; example_store false true true]
      (example_store true false false)
      !! tf.var_name (example_template ())
    = Some (tf.VBool true).
Proof.
  split.
  - apply (proj1 (proj2 is_over_monotone) store_world
             [opaque_candidate "a"; opaque_candidate "b"] example_template
             (example_store false false false) [false; false]
             (tf.VBool false)).
    + vm_compute. reflexivity.
    + vm_compute. reflexivity.
  - apply (proj2 (proj2 is_over_monotone)).
    vm_compute. reflexivity.
Defined.

(** ** C3: the fused train op *)

Lemma exec_group (w : tf.World) (l : list tf.Op) (s : tf.Store)
    (tr : list tf.Op) :
  tf.exec w (tf.group l) s tr = tf.exec_all w l s tr.
Proof.
  cbn [tf.exec]. revert s tr.
  induction l as [|o l IH]; intros s tr; [done |].
  cbn [tf.exec_all]. unfold tf.then_.
  destruct (tf.status (tf.exec w o s tr)); [apply IH | done].
Qed.

Lemma exec_control_dependencies (w : tf.World) (deps : list tf.Op)
    (body : tf.Op) (s : tf.Store) (tr : list tf.Op) :
  tf.exec w (tf.control_dependencies deps body) s tr
  = tf.then_ (tf.exec_all w deps s tr) (tf.exec w body).
Proof.
  change (tf.exec w (tf.control_dependencies deps body) s tr)
    with (tf.then_ (tf.exec w (tf.group deps) s tr) (tf.exec w body)).
  by rewrite exec_group.
Qed.

Lemma collect_train_ops_step (acc : list tf.Op) (c : _Candidate) :
  train_ops_paired [c] = true →
  collect_train_ops acc c = Ok (acc ++ train_ops_of c).
Proof.
  unfold train_ops_paired, collect_train_ops, train_ops_of. simpl.
  destruct (ensemble.subnetwork_train_op _) as [sub|];
    [destruct (ensemble.ensemble_train_op _) as [ens|]; [done |] |].
  - by rewrite andb_true_r.
  - intros _. by rewrite app_nil_r.
Qed.

Lemma collect_train_ops_paired (candidates : list _Candidate)
    (acc : list tf.Op) :
  train_ops_paired candidates = true →
  for_each collect_train_ops candidates acc
  = Ok (acc ++ (candidates ≫= train_ops_of)).
Proof.
  revert acc. induction candidates as [|c candidates IH]; intros acc Hp.
  - simpl. by rewrite app_nil_r.
  - apply andb_prop in Hp as [Hc Hp].
    cbn [for_each]. rewrite collect_train_ops_step
      by (unfold train_ops_paired; simpl; by rewrite Hc).
    rewrite bind_Ok_l, IH by done.
    change ((c :: candidates) ≫= train_ops_of)
      with (train_ops_of c ++ (candidates ≫= train_ops_of)).
    by rewrite <- app_assoc.
Qed.

(** C3. In TRAIN mode, when every candidate with a subnetwork train op has
    an ensemble train op, [_create_train_op] returns the group of the two
    step increments under control dependencies on one set: the
    subnetwork-level and ensemble-level train ops of every candidate that
    has them, and the completion-flag update.  In a pass the increments run
    after every op of that set: if the set aborts nothing else runs, and if
    it completes, the global step and the iteration step are both
    incremented in the store the set left. *)
Theorem train_op_fused (candidates : list _Candidate) (step : tf.Var)
    (is_over_var_template : Template) (w : tf.World) (s : tf.Store)
    (g k : Z) :
  train_ops_paired candidates = true →
  let deps := dependency_set candidates is_over_var_template in
  let after := tf.exec_all w deps s [] in
  let train_op :=
    tf.control_dependencies deps
      (tf.group [tf.assign_add get_global_step 1; tf.assign_add step 1]) in
  _create_train_op candidates tf.TRAIN step is_over_var_template = Ok train_op
  ∧ (tf.status after = tf.Aborted → tf.run w train_op s = after)
  ∧ (tf.status after = tf.Completed →
     tf.var_name step ≠ "global_step" →
     tf.store after !! "global_step" = Some (tf.VInt g) →
     tf.store after !! tf.var_name step = Some (tf.VInt k) →
     tf.run w train_op s
     = tf.mkRun tf.Completed
         (<[tf.var_name step := tf.VInt (tf.wrap64 (k + 1))]>
            (<["global_step" := tf.VInt (tf.wrap64 (g + 1))]>
               (tf.store after)))
         (tf.trace after
          ++ [tf.assign_add get_global_step 1; tf.assign_add step 1])).
Proof.
  intros Hpaired deps after train_op. split; [| split].
  - unfold _create_train_op. simpl negb. cbn iota.
    rewrite collect_train_ops_paired by done. done.
  - intros Hab. unfold tf.run, train_op.
    rewrite exec_control_dependencies. fold after.
    unfold tf.then_. by rewrite Hab.
  - intros Hok Hne Hg Hk. unfold tf.run, train_op.
    rewrite exec_control_dependencies. fold after.
    unfold tf.then_. rewrite Hok. rewrite exec_group.
    cbn [tf.exec_all tf.exec]. unfold get_global_step at 1.
    cbn [tf.var_name]. rewrite Hg. unfold tf.then_. cbn [tf.status tf.store].
    rewrite lookup_insert_ne by done. rewrite Hk.
    cbn [tf.status tf.store tf.trace]. by rewrite <- app_assoc.
Qed.

Lemma train_op_fused_witness :
  _create_train_op example_candidates tf.TRAIN example_step example_template
  = Ok (tf.control_dependencies
          (dependency_set example_candidates example_template)
          (tf.group [tf.assign_add get_global_step 1;
                     tf.assign_add example_step 1]))
  ∧ tf.run store_world
      (tf.control_dependencies
         (dependency_set example_candidates example_template)
         (tf.group [tf.assign_add get_global_step 1;
                    tf.assign_add example_step 1]))
      (example_store false false false)
    = tf.mkRun tf.Completed
        (<[tf.var_name example_step := tf.VInt (tf.wrap64 (7 + 1))]>
           (<["global_step" := tf.VInt (tf.wrap64 (41 + 1))]>
              (tf.store
                 (tf.exec_all store_world
                    (dependency_set example_candidates example_template)
                    (example_store false false false) []))))
        (tf.trace
           (tf.exec_all store_world
              (dependency_set example_candidates example_template)
              (example_store false false false) [])
         ++ [tf.assign_add get_global_step 1; tf.assign_add example_step 1]).
Proof.
  pose proof (train_op_fused example_candidates example_step example_template
                store_world (example_store false false false) 41 7 eq_refl)
    as (Hbuilt & _ & Hrun).
  split; [exact Hbuilt |].
  apply Hrun.
  - vm_compute. reflexivity.
  - discriminate.
  - vm_compute. reflexivity.
  - vm_compute. reflexivity.
Defined.

(** ** The loop of [build_iteration] over the builders *)

Section build_loop.
Context (self : _IterationBuilder) (iteration_number : Z)
  (features : Features) (mode : tf.ModeKeys) (labels : option tf.Tensor)
  (previous_ensemble_spec : option _EnsembleSpec) (rebuilding : bool)
  (params : option Params) (iteration_step_tensor : tf.Tensor).

Local Abbreviation build_one' :=
  (build_one self iteration_number features mode labels
     previous_ensemble_spec rebuilding params iteration_step_tensor).
Local Abbreviation add_builder' :=
  (add_builder self iteration_number features mode labels
     previous_ensemble_spec rebuilding params iteration_step_tensor).
Local Abbreviation new_candidate' :=
  (new_candidate self iteration_number features mode labels
     previous_ensemble_spec rebuilding params iteration_step_tensor).
Local Abbreviation new_ensemble_spec' :=
  (new_ensemble_spec self iteration_number features mode labels
     previous_ensemble_spec rebuilding params iteration_step_tensor).

Lemma build_one_spec (st : Locals) (b : subnetwork.Builder) :
  build_one' st b
  = if bool_decide (subnetwork.name b ∈ seen_builder_names st)
    then Raise (same_name_error (subnetwork.name b))
    else Ok (add_builder' st b).
Proof. reflexivity. Qed.

Lemma seen_after_loop (l : list subnetwork.Builder) (st : Locals) :
  seen_builder_names (foldl add_builder' st l)
  = list_to_set (subnetwork.name <$> l) ∪ seen_builder_names st.
Proof.
  revert st. induction l as [|b l IH]; intros st; simpl.
  - set_solver.
  - rewrite IH. simpl. set_solver.
Qed.

Lemma candidates_after_loop (l : list subnetwork.Builder) (st : Locals) :
  l_candidates (foldl add_builder' st l)
  = l_candidates st ++ (new_candidate' <$> l).
Proof.
  revert st. induction l as [|b l IH]; intros st; simpl.
  - by rewrite app_nil_r.
  - rewrite IH. simpl. by rewrite <- app_assoc.
Qed.

(** A name that no builder bears keeps the report it had before the loop. *)
Lemma reports_after_loop_other (l : list subnetwork.Builder) (st : Locals)
    (k : string) :
  k ∉ subnetwork.name <$> l →
  l_subnetwork_reports (foldl add_builder' st l) !! k
  = l_subnetwork_reports st !! k.
Proof.
  revert st. induction l as [|b l IH]; intros st Hk; simpl; [done |].
  rewrite fmap_cons, not_elem_of_cons in Hk. destruct Hk as [Hne Hk].
  rewrite IH by done. simpl.
  destruct (negb _); [by rewrite lookup_insert_ne | done].
Qed.

(** Outside PREDICT, every builder's report is stored under its name. *)
Lemma reports_after_loop_builder (l : list subnetwork.Builder) (st : Locals)
    (b : subnetwork.Builder) :
  mode ≠ tf.PREDICT → NoDup (subnetwork.name <$> l) → b ∈ l →
  l_subnetwork_reports (foldl add_builder' st l) !! subnetwork.name b
  = Some (builder_report b (new_ensemble_spec' b)).
Proof.
  intros Hmode. revert st.
  induction l as [|b0 l IH]; intros st Hnd Hb; [by apply elem_of_nil in Hb |].
  rewrite fmap_cons in Hnd. apply NoDup_cons in Hnd as [Hb0 Hnd].
  simpl. apply elem_of_cons in Hb as [-> | Hb]; [| by apply IH].
  rewrite reports_after_loop_other by done. simpl.
  destruct mode; simpl; try done; by rewrite lookup_insert_eq.
Qed.

(** In PREDICT mode the loop stores no report. *)
Lemma reports_after_loop_predict (l : list subnetwork.Builder) (st : Locals) :
  mode = tf.PREDICT →
  l_subnetwork_reports (foldl add_builder' st l) = l_subnetwork_reports st.
Proof.
  intros ->. revert st. induction l as [|b l IH]; intros st; simpl; [done |].
  by rewrite IH.
Qed.

Lemma reports_dom_after_loop (l : list subnetwork.Builder) (st : Locals) :
  mode ≠ tf.PREDICT →
  dom (l_subnetwork_reports (foldl add_builder' st l))
  = list_to_set (subnetwork.name <$> l) ∪ dom (l_subnetwork_reports st).
Proof.
  intros Hmode. revert st. induction l as [|b l IH]; intros st; simpl.
  - set_solver.
  - rewrite IH. simpl. destruct mode; simpl; try done;
      rewrite dom_insert_L; set_solver.
Qed.

(** The loop succeeds exactly when the builders' names are pairwise
    distinct and none was seen before; otherwise it raises the
    naming-collision error for one of the names. *)
Lemma build_loop_spec (l : list subnetwork.Builder) (st : Locals) :
  match for_each build_one' l st with
  | Ok st' =>
      NoDup (subnetwork.name <$> l)
      ∧ (∀ n, n ∈ subnetwork.name <$> l → n ∉ seen_builder_names st)
      ∧ st' = foldl add_builder' st l
  | Raise e =>
      ∃ n, e = same_name_error n
           ∧ n ∈ subnetwork.name <$> l
           ∧ (n ∈ seen_builder_names st ∨ ¬ NoDup (subnetwork.name <$> l))
  end.
Proof.
  revert st. induction l as [|b l IH]; intros st.
  - simpl. split; [constructor |]. split; [| done].
    intros n Hn. by apply elem_of_nil in Hn.
  - cbn [for_each]. rewrite build_one_spec. case_bool_decide as Hseen.
    + simpl. exists (subnetwork.name b). split; [done |].
      split; [left | by left].
    + rewrite bind_Ok_l. specialize (IH (add_builder' st b)).
      destruct (for_each _ l _) as [st'|e].
      * destruct IH as (Hnd & Hfresh & ->). split; [| split; [| done]].
        -- rewrite fmap_cons. apply NoDup_cons. split; [| done].
           intros Hin. apply (Hfresh _ Hin). simpl. set_solver.
        -- intros n Hn. rewrite fmap_cons in Hn.
           apply elem_of_cons in Hn as [-> | Hn]; [done |].
           specialize (Hfresh _ Hn). simpl in Hfresh. set_solver.
      * destruct IH as (n & -> & Hn & Hcoll). exists n.
        split; [done |]. split; [rewrite fmap_cons; by right |].
        simpl in Hcoll. rewrite fmap_cons.
        destruct Hcoll as [Hin | Hdup].
        -- apply elem_of_union in Hin as [Hin | Hin]; [| by left].
           apply elem_of_singleton in Hin as ->. right.
           intros Hnd. apply NoDup_cons in Hnd as [Hnot _]. done.
        -- right. intros Hnd. apply NoDup_cons in Hnd as [_ Hnd]. done.
Qed.

End build_loop.

(** ** A successful [build_iteration] *)

Lemma iteration_new_Ok
    (number candidates estimator_spec best_candidate_index summaries
     is_over_fn subnetwork_reports step : PyObject) (it : _Iteration) :
  _Iteration__new__ number candidates estimator_spec best_candidate_index
    summaries is_over_fn subnetwork_reports step = Ok it →
  it = {| number := number;
          candidates := candidates;
          estimator_spec := estimator_spec;
          best_candidate_index := best_candidate_index;
          summaries := summaries;
          is_over_fn := is_over_fn;
          subnetwork_reports := subnetwork_reports;
          step := step |}.
Proof.
  unfold _Iteration__new__.
  repeat match goal with
         | |- context [if ?b then _ else _] => destruct b; try discriminate
         end.
  congruence.
Qed.

(** Everything a successful build went through. *)
Lemma build_iteration_Ok (self : _IterationBuilder) (iteration_number : Z)
    (subnetwork_builders : list subnetwork.Builder) (features : Features)
    (mode : tf.ModeKeys) (labels : option tf.Tensor)
    (previous_ensemble_summary : option summary._ScopedSummary)
    (previous_ensemble_spec : option _EnsembleSpec) (rebuilding : bool)
    (params : option Params) (it : _Iteration) :
  build_iteration self iteration_number subnetwork_builders features mode
    labels previous_ensemble_summary previous_ensemble_spec rebuilding params
  = Ok it →
  let st :=
    locals_of self iteration_number subnetwork_builders features mode labels
      previous_ensemble_summary previous_ensemble_spec rebuilding params in
  let best := _best_candidate_index (l_candidates st) in
  NoDup (subnetwork.name <$> subnetwork_builders)
  ∧ ∃ best_predictions best_loss best_export_outputs hooks eval_metric_ops
      train_op,
      _best_predictions (l_candidates st) best = Ok best_predictions
      ∧ _best_loss (l_candidates st) best mode = Ok best_loss
      ∧ _best_export_outputs (l_candidates st) best mode best_predictions
        = Ok best_export_outputs
      ∧ eval_metric_ops_of (l_candidates st) best mode params
        = Ok eval_metric_ops
      ∧ _create_train_op (l_candidates st) mode
          (iteration_step_of iteration_number)
          (is_over_template_of iteration_number) = Ok train_op
      ∧ it = {| number := PyInt iteration_number;
                candidates := PyList (PyCandidate <$> l_candidates st);
                estimator_spec :=
                  PyEstimatorSpec
                    {| estimator.mode := mode;
                       estimator.predictions := best_predictions;
                       estimator.loss := best_loss;
                       estimator.train_op := train_op;
                       estimator.eval_metric_ops := eval_metric_ops;
                       estimator.export_outputs := best_export_outputs;
                       estimator.training_chief_hooks := hooks.1;
                       estimator.training_hooks := hooks.2 |};
                best_candidate_index := PyTensor best;
                summaries := PyList (summary_object <$> l_summaries st);
                is_over_fn :=
                  PyFunction (is_over_template_of iteration_number);
                subnetwork_reports :=
                  PyDict (PyReport <$> l_subnetwork_reports st);
                step := PyTensor (iteration_step_tensor_of iteration_number) |}.
Proof.
  intros H st best. unfold build_iteration in H.
  case_bool_decide as Hne; [discriminate |]. cbv zeta in H.
  inv_bind H st' Hloop.
  pose proof (build_loop_spec self iteration_number features mode labels
                previous_ensemble_spec rebuilding params
                (iteration_step_tensor_of iteration_number)
                subnetwork_builders
                (initial_locals self mode previous_ensemble_summary
                   previous_ensemble_spec
                   (iteration_step_tensor_of iteration_number))) as Hspec.
  unfold iteration_step_tensor_of, iteration_step_of in Hspec.
  rewrite Hloop in Hspec. destruct Hspec as (Hnd & _ & ->).
  inv_bind H bp Hbp. inv_bind H bl Hbl. inv_bind H beo Hbeo.
  inv_bind H hooks Hhooks. inv_bind H emo Hemo. inv_bind H trop Htrop.
  apply iteration_new_Ok in H.
  split; [done |]. exists bp, bl, beo, hooks, emo, trop.
  repeat split; done.
Qed.

(** ** C8: name collisions *)

(** C8. When the previous best ensemble's name equals the name of a new
    builder, or two builders share a name, [build_iteration] raises the
    naming-collision [ValueError] for one of the builders' names; it does
    not return an iteration. *)
Theorem name_collision_fails (self : _IterationBuilder) (iteration_number : Z)
    (subnetwork_builders : list subnetwork.Builder) (features : Features)
    (mode : tf.ModeKeys) (labels : option tf.Tensor)
    (previous_ensemble_summary : option summary._ScopedSummary)
    (previous_ensemble_spec : option _EnsembleSpec) (rebuilding : bool)
    (params : option Params) :
  (∃ prev, previous_ensemble_spec = Some prev
           ∧ ensemble.name prev ∈ subnetwork.name <$> subnetwork_builders)
  ∨ ¬ NoDup (subnetwork.name <$> subnetwork_builders) →
  ∃ n, n ∈ subnetwork.name <$> subnetwork_builders
       ∧ build_iteration self iteration_number subnetwork_builders features
           mode labels previous_ensemble_summary previous_ensemble_spec
           rebuilding params
         = Raise (same_name_error n).
Proof.
  intros Hcoll. unfold build_iteration. case_bool_decide as Hempty.
  { subst. destruct Hcoll as [(prev & _ & Hin) | Hdup].
    - by apply elem_of_nil in Hin.
    - destruct Hdup. constructor. }
  cbv zeta.
  pose proof (build_loop_spec self iteration_number features mode labels
                previous_ensemble_spec rebuilding params
                (iteration_step_tensor_of iteration_number)
                subnetwork_builders
                (initial_locals self mode previous_ensemble_summary
                   previous_ensemble_spec
                   (iteration_step_tensor_of iteration_number))) as Hspec.
  unfold iteration_step_tensor_of, iteration_step_of in Hspec.
  destruct (for_each _ subnetwork_builders _) as [st|e].
  - destruct Hspec as (Hnd & Hfresh & _).
    destruct Hcoll as [(prev & -> & Hin) | Hdup]; [| done].
    destruct (Hfresh _ Hin). simpl. set_solver.
  - destruct Hspec as (n & -> & Hn & _). by exists n.
Qed.

Lemma name_collision_fails_witness :
  ∃ n, n ∈ subnetwork.name <$> [example_subnetwork_builder "linear"]
       ∧ build_iteration example_iteration_builder 1
           [example_subnetwork_builder "linear"] ∅ tf.TRAIN None None
           (Some example_previous_ensemble) false None
         = Raise (same_name_error n).
Proof.
  apply (name_collision_fails example_iteration_builder 1
           [example_subnetwork_builder "linear"] ∅ tf.TRAIN None None
           (Some example_previous_ensemble) false None).
  left. exists example_previous_ensemble. split; [reflexivity |].
  simpl. constructor.
Defined.

(** ** C7: single-candidate iterations *)

(** C7. With exactly one candidate, the best index is the constant 0 and
    the best predictions, the best loss (in TRAIN and EVAL) and the best
    export outputs (in PREDICT) are that candidate's own objects, with no
    stacking or indexing node around them; and so are the fields of the
    iteration built from a single builder and no previous ensemble. *)
Theorem single_candidate_unchanged :
  (∀ (c : _Candidate) (best : tf.Tensor) (best_predictions : Predictions)
     (w : tf.World) (s : tf.Store),
     _best_candidate_index [c] = tf.constant (tf.VInt 0)
     ∧ tf.eval w s (_best_candidate_index [c]) = Some (tf.VInt 0)
     ∧ _best_predictions [c] best
       = Ok (ensemble.predictions (candidate.ensemble_spec c))
     ∧ _best_loss [c] best tf.TRAIN
       = Ok (ensemble.loss (candidate.ensemble_spec c))
     ∧ _best_loss [c] best tf.EVAL
       = Ok (ensemble.loss (candidate.ensemble_spec c))
     ∧ _best_export_outputs [c] best tf.PREDICT best_predictions
       = Ok (ensemble.export_outputs (candidate.ensemble_spec c)))
  ∧ (∀ self iteration_number b features mode labels
       previous_ensemble_summary rebuilding params it,
       build_iteration self iteration_number [b] features mode labels
         previous_ensemble_summary None rebuilding params = Ok it →
       let c :=
         new_candidate self iteration_number features mode labels None
           rebuilding params (iteration_step_tensor_of iteration_number) b in
       candidates it = PyList [PyCandidate c]
       ∧ best_candidate_index it = PyTensor (tf.constant (tf.VInt 0))
       ∧ ∃ es,
           estimator_spec it = PyEstimatorSpec es
           ∧ estimator.predictions es
             = ensemble.predictions (candidate.ensemble_spec c)
           ∧ (mode ≠ tf.PREDICT →
              estimator.loss es = ensemble.loss (candidate.ensemble_spec c))
           ∧ (mode = tf.PREDICT →
              estimator.export_outputs es
              = ensemble.export_outputs (candidate.ensemble_spec c))).
Proof.
  split; [done |].
  intros self n b features mode labels psum rebuilding params it Hbuild c.
  apply build_iteration_Ok in Hbuild as (_ & bp & bl & beo & hooks & emo
                                           & trop & Hbp & Hbl & Hbeo & _ & _
                                           & ->).
  change (l_candidates
            (locals_of self n [b] features mode labels psum None rebuilding
               params)) with [c] in *.
  simpl. split; [done |]. split; [done |].
  eexists. split; [done |]. simpl.
  injection Hbp as <-. split; [done |]. split.
  - intros Hmode. destruct mode; try done; by injection Hbl as <-.
  - intros ->. by injection Hbeo as <-.
Qed.

Lemma single_candidate_unchanged_witness :
  ∃ it,
    build_iteration example_iteration_builder 0
      [example_subnetwork_builder "dnn"] ∅ tf.TRAIN None None None false None
    = Ok it
    ∧ candidates it
      = PyList
          [PyCandidate
             (new_candidate example_iteration_builder 0 ∅ tf.TRAIN None None
                false None (iteration_step_tensor_of 0)
                (example_subnetwork_builder "dnn"))]
    ∧ best_candidate_index it = PyTensor (tf.constant (tf.VInt 0)).
Proof.
  assert (∃ it,
            build_iteration example_iteration_builder 0
              [example_subnetwork_builder "dnn"] ∅ tf.TRAIN None None None
              false None = Ok it)
    as [it Hbuild] by (eexists; vm_compute; reflexivity).
  exists it. split; [exact Hbuild |].
  destruct (proj2 single_candidate_unchanged example_iteration_builder 0
              (example_subnetwork_builder "dnn") ∅ tf.TRAIN None None false
              None it Hbuild) as (Hc & Hb & _).
  split; [exact Hc | exact Hb].
Defined.

(** ** Subnetwork reports *)

Lemma copy_metrics_lookup (metrics base : Metrics) (l : list string)
    (k : string) :
  foldl (copy_metric metrics) base l !! k
  = match metrics !! k with
    | Some v => if decide (k ∈ l) then Some v else base !! k
    | None => base !! k
    end.
Proof.
  revert base. induction l as [|x l IH]; intros base.
  - simpl. by destruct (metrics !! k).
  - simpl. rewrite IH. unfold copy_metric.
    destruct (metrics !! k) as [v|] eqn:Hk.
    + destruct (decide (k ∈ l)) as [Hin | Hnin].
      * rewrite decide_True by (by right). done.
      * destruct (decide (k = x)) as [-> | Hne].
        -- rewrite decide_True by (by left). rewrite Hk.
           by rewrite lookup_insert_eq.
        -- rewrite decide_False by (rewrite elem_of_cons; tauto).
           destruct (metrics !! x); [by rewrite lookup_insert_ne | done].
    + destruct (metrics !! x) eqn:Hx; [| done].
      rewrite lookup_insert_ne; [done |]. congruence.
Qed.

Lemma copy_metrics_union (metrics base : Metrics) :
  foldl (copy_metric metrics) base (sorted_keys metrics) = metrics ∪ base.
Proof.
  apply map_eq. intros k. rewrite copy_metrics_lookup, lookup_union.
  destruct (metrics !! k) as [v|] eqn:Hk.
  - destruct (decide _) as [_ | Hn].
    + by destruct (base !! k).
    + destruct Hn. apply elem_of_sorted_keys. eauto.
  - by destruct (base !! k).
Qed.

(** The metrics of a new builder's report: ["adanet_loss"], the mean of the
    ensemble's loss, over the candidate's own metrics, over the metrics of
    the builder's hook. *)
Lemma builder_report_metrics (b : subnetwork.Builder) (spec : _EnsembleSpec) :
  subnetwork.metrics (builder_report b spec)
  = <["adanet_loss" := tf.metrics_mean (ensemble.adanet_loss spec)]>
      (own_metrics spec ∪ hook_metrics b).
Proof.
  unfold builder_report, own_metrics, hook_metrics. cbn [subnetwork.metrics].
  f_equal.
  destruct (ensemble.eval_metrics spec) as [em|].
  - rewrite copy_metrics_union. by destruct (subnetwork.build_subnetwork_report b).
  - rewrite (left_id_L ∅ (∪)). by destruct (subnetwork.build_subnetwork_report b).
Qed.

Lemma previous_ensemble_report_metrics (prev : _EnsembleSpec) :
  subnetwork.metrics (previous_ensemble_report prev)
  = <["adanet_loss" := tf.metrics_mean (ensemble.adanet_loss prev)]>
      (own_metrics prev).
Proof. reflexivity. Qed.

Section reports.
Context (self : _IterationBuilder) (iteration_number : Z)
  (subnetwork_builders : list subnetwork.Builder) (features : Features)
  (mode : tf.ModeKeys) (labels : option tf.Tensor)
  (previous_ensemble_summary : option summary._ScopedSummary)
  (previous_ensemble_spec : option _EnsembleSpec) (rebuilding : bool)
  (params : option Params).

Local Abbreviation reports :=
  (l_subnetwork_reports
     (locals_of self iteration_number subnetwork_builders features mode
        labels previous_ensemble_summary previous_ensemble_spec rebuilding
        params)).
Local Abbreviation spec_of :=
  (new_ensemble_spec self iteration_number features mode labels
     previous_ensemble_spec rebuilding params
     (iteration_step_tensor_of iteration_number)).

Lemma reports_lookup_builder (b : subnetwork.Builder) :
  mode ≠ tf.PREDICT →
  NoDup (subnetwork.name <$> subnetwork_builders) →
  b ∈ subnetwork_builders →
  reports !! subnetwork.name b = Some (builder_report b (spec_of b)).
Proof. intros. by apply reports_after_loop_builder. Qed.

Lemma reports_lookup_previous (prev : _EnsembleSpec) :
  mode = tf.EVAL → previous_ensemble_spec = Some prev →
  "previous_ensemble" ∉ subnetwork.name <$> subnetwork_builders →
  reports !! "previous_ensemble" = Some (previous_ensemble_report prev).
Proof.
  intros -> -> Hfree. unfold locals_of.
  rewrite reports_after_loop_other by done. simpl.
  by rewrite lookup_singleton_eq.
Qed.

(** The keys of the reports: the builders' names, and ["previous_ensemble"]
    in EVAL mode when there is a previous ensemble; none in PREDICT mode. *)
Lemma reports_dom :
  dom reports
  = (if tf.mode_eqb mode tf.PREDICT then ∅
     else list_to_set (subnetwork.name <$> subnetwork_builders))
    ∪ (if tf.mode_eqb mode tf.EVAL && bool_decide (is_Some previous_ensemble_spec)
       then {["previous_ensemble"]} else ∅).
Proof.
  unfold locals_of. destruct (decide (mode = tf.PREDICT)) as [-> | Hmode].
  - rewrite reports_after_loop_predict by done. simpl.
    destruct previous_ensemble_spec; simpl; set_solver.
  - rewrite reports_dom_after_loop by done.
    replace (tf.mode_eqb mode tf.PREDICT) with false by (by destruct mode).
    f_equal. destruct previous_ensemble_spec as [prev|]; simpl.
    + destruct (tf.mode_eqb mode tf.EVAL); simpl; [| set_solver].
      by rewrite dom_singleton_L.
    + rewrite andb_false_r. set_solver.
Qed.

(** Every stored report has the ["adanet_loss"] metric. *)
Lemma reports_have_adanet_loss (k : string) (r : subnetwork.Report) :
  NoDup (subnetwork.name <$> subnetwork_builders) →
  reports !! k = Some r →
  is_Some (subnetwork.metrics r !! "adanet_loss").
Proof.
  intros Hnd Hr.
  destruct (decide (mode = tf.PREDICT)) as [Hp | Hmode].
  { assert (k ∈ dom reports) as Hk by (apply elem_of_dom; eauto).
    rewrite reports_dom in Hk. subst mode. simpl in Hk. set_solver. }
  destruct (decide (k ∈ subnetwork.name <$> subnetwork_builders))
    as [Hin | Hnin].
  - apply list_elem_of_fmap in Hin as (b & -> & Hb).
    rewrite reports_lookup_builder in Hr by done.
    injection Hr as <-. rewrite builder_report_metrics.
    rewrite lookup_insert_eq. eauto.
  - unfold locals_of in Hr. rewrite reports_after_loop_other in Hr by done.
    destruct previous_ensemble_spec as [prev|]; simpl in Hr; [| done].
    destruct (tf.mode_eqb mode tf.EVAL); [| done].
    apply lookup_singleton_Some in Hr as [_ <-].
    rewrite previous_ensemble_report_metrics, lookup_insert_eq. eauto.
Qed.

End reports.

(** ** C4: mode gating *)

(** C4. In PREDICT mode the best loss and the eval metric ops are [None]
    and the train op is a no-op, which leaves the store as it is; in TRAIN
    and in EVAL mode the export outputs are [None]; in EVAL mode every
    report, that of each builder's candidate and that of the previous
    ensemble when there is one, has an ["adanet_loss"] metric.  This holds
    of the functions that compute these outputs and of the estimator spec
    and the reports of every iteration that [build_iteration] returns. *)
Theorem outputs_gated_by_mode :
  (∀ candidates best best_predictions params step is_over_var_template,
     _best_loss candidates best tf.PREDICT = Ok None
     ∧ _create_best_eval_metrics_tuple candidates best tf.PREDICT params = None
     ∧ _create_train_op candidates tf.PREDICT step is_over_var_template
       = Ok (tf.no_op "NoOp")
     ∧ _best_export_outputs candidates best tf.TRAIN best_predictions = Ok None
     ∧ _best_export_outputs candidates best tf.EVAL best_predictions = Ok None)
  ∧ (∀ self iteration_number subnetwork_builders features mode labels
       previous_ensemble_summary previous_ensemble_spec rebuilding params it,
       build_iteration self iteration_number subnetwork_builders features
         mode labels previous_ensemble_summary previous_ensemble_spec
         rebuilding params = Ok it →
       ∃ es reports,
         estimator_spec it = PyEstimatorSpec es
         ∧ subnetwork_reports it = PyDict (PyReport <$> reports)
         ∧ (mode = tf.PREDICT →
            estimator.loss es = None
            ∧ estimator.eval_metric_ops es = None
            ∧ estimator.train_op es = tf.no_op "NoOp"
            ∧ ∀ w s, tf.run w (estimator.train_op es) s
                     = tf.mkRun tf.Completed s [tf.no_op "NoOp"])
         ∧ (mode = tf.TRAIN → estimator.export_outputs es = None)
         ∧ (mode = tf.EVAL →
            estimator.export_outputs es = None
            ∧ (∀ b, b ∈ subnetwork_builders →
                 ∃ r, reports !! subnetwork.name b = Some r
                      ∧ is_Some (subnetwork.metrics r !! "adanet_loss"))
            ∧ (is_Some previous_ensemble_spec →
                 ∃ r, reports !! "previous_ensemble" = Some r
                      ∧ is_Some (subnetwork.metrics r !! "adanet_loss"))
            ∧ (∀ k r, reports !! k = Some r →
                 is_Some (subnetwork.metrics r !! "adanet_loss")))).
Proof.
  split; [done |].
  intros self n builders features mode labels psum prev rebuilding params it
    Hbuild.
  apply build_iteration_Ok in Hbuild as (Hnd & bp & bl & beo & hooks & emo
                                           & trop & Hbp & Hbl & Hbeo & Hemo
                                           & Htrop & ->).
  eexists _, _. split; [reflexivity |]. split; [reflexivity |].
  cbn [estimator.loss estimator.eval_metric_ops estimator.train_op
       estimator.export_outputs].
  split; [| split].
  - intros ->. injection Hbl as <-. injection Hemo as <-.
    injection Htrop as <-. done.
  - intros ->. by injection Hbeo as <-.
  - intros ->. injection Hbeo as <-. split; [done |].
    assert (∀ k r,
              l_subnetwork_reports
                (locals_of self n builders features tf.EVAL labels psum prev
                   rebuilding params) !! k = Some r →
              is_Some (subnetwork.metrics r !! "adanet_loss")) as Hall.
    { intros k r. by apply reports_have_adanet_loss. }
    split; [| split; [| done]].
    + intros b Hb. eexists. split; [| rewrite builder_report_metrics,
                                       lookup_insert_eq; eauto].
      by apply reports_lookup_builder.
    + intros [p ->].
      assert ("previous_ensemble"
              ∈ dom (l_subnetwork_reports
                       (locals_of self n builders features tf.EVAL labels
                          psum (Some p) rebuilding params))) as Hdom.
      { rewrite reports_dom. simpl. set_solver. }
      apply elem_of_dom in Hdom as [r Hr]. exists r. split; [done |].
      by eapply Hall.
Qed.

Lemma outputs_gated_by_mode_witness :
  let builders :=
    [example_subnetwork_builder "dnn"; example_subnetwork_builder "cnn"] in
  ∃ it,
    build_iteration example_iteration_builder 1 builders ∅ tf.EVAL None None
      (Some example_previous_ensemble) false None = Ok it
    ∧ ∃ es reports,
        estimator_spec it = PyEstimatorSpec es
        ∧ subnetwork_reports it = PyDict (PyReport <$> reports)
        ∧ (tf.EVAL = tf.PREDICT →
           estimator.loss es = None
           ∧ estimator.eval_metric_ops es = None
           ∧ estimator.train_op es = tf.no_op "NoOp"
           ∧ ∀ w s, tf.run w (estimator.train_op es) s
                    = tf.mkRun tf.Completed s [tf.no_op "NoOp"])
        ∧ (tf.EVAL = tf.TRAIN → estimator.export_outputs es = None)
        ∧ (tf.EVAL = tf.EVAL →
           estimator.export_outputs es = None
           ∧ (∀ b, b ∈ builders →
                ∃ r, reports !! subnetwork.name b = Some r
                     ∧ is_Some (subnetwork.metrics r !! "adanet_loss"))
           ∧ (is_Some (Some example_previous_ensemble) →
                ∃ r, reports !! "previous_ensemble" = Some r
                     ∧ is_Some (subnetwork.metrics r !! "adanet_loss"))
           ∧ (∀ k r, reports !! k = Some r →
                is_Some (subnetwork.metrics r !! "adanet_loss"))).
Proof.
  intros builders. eexists. split; [vm_compute; reflexivity |].
  apply (proj2 outputs_gated_by_mode example_iteration_builder 1 builders ∅
           tf.EVAL None None (Some example_previous_ensemble) false None).
  vm_compute. reflexivity.
Defined.

(** ** C6: per-candidate reports *)

(** C6, as stated, fails: in TRAIN mode, which is not PREDICT, the build
    below succeeds with a previous ensemble and stores a single report, the
    new builder's; no stored report is the carryover candidate's. *)
Lemma carryover_report_missing_in_train :
  ∃ it reports,
    build_iteration example_iteration_builder 1
      [example_subnetwork_builder "dnn"] ∅ tf.TRAIN None None
      (Some example_previous_ensemble) false None = Ok it
    ∧ tf.TRAIN ≠ tf.PREDICT
    ∧ subnetwork_reports it = PyDict (PyReport <$> reports)
    ∧ dom reports = {["dnn"]}
    ∧ ¬ carryover_has_report example_previous_ensemble reports.
Proof.
  assert (∃ it,
            build_iteration example_iteration_builder 1
              [example_subnetwork_builder "dnn"] ∅ tf.TRAIN None None
              (Some example_previous_ensemble) false None = Ok it)
    as [it Hbuild] by (eexists; vm_compute; reflexivity).
  exists it. eexists. split; [exact Hbuild |]. split; [done |].
  apply build_iteration_Ok in Hbuild as (_ & bp & bl & beo & hooks & emo
                                           & trop & _ & _ & _ & _ & _ & ->).
  split; [reflexivity |]. split.
  - rewrite reports_dom. simpl. set_solver.
  - intros (k & r & Hr & Hm).
    unfold locals_of in Hr. simpl in Hr.
    apply lookup_insert_Some in Hr as [[_ <-] | [_ Hr]];
      [| by rewrite lookup_empty in Hr].
    rewrite builder_report_metrics in Hm.
    apply (f_equal (λ m, m !! "adanet_loss")) in Hm.
    rewrite !lookup_insert_eq in Hm. vm_compute in Hm. discriminate.
Qed.

(** C6, amended.  For every new builder, whenever the mode is not PREDICT,
    the report stored under the builder's name carries the metrics of the
    candidate's ensemble spec, over those of the builder's report hook, plus
    an ["adanet_loss"] metric that is the mean of the ensemble's
    [adanet_loss].  For the previous ensemble a report is generated in EVAL
    mode only: it has no hyperparameters or attributes, carries the metrics
    of the stored [(metric_fn, kwargs)] pair plus the mean of its
    [adanet_loss], and is found under ["previous_ensemble"] unless a builder
    bears that name.  In TRAIN mode the reports are those of the builders
    alone. *)
Theorem reports_per_candidate (self : _IterationBuilder) (iteration_number : Z)
    (subnetwork_builders : list subnetwork.Builder) (features : Features)
    (mode : tf.ModeKeys) (labels : option tf.Tensor)
    (previous_ensemble_summary : option summary._ScopedSummary)
    (previous_ensemble_spec : option _EnsembleSpec) (rebuilding : bool)
    (params : option Params) (it : _Iteration) :
  build_iteration self iteration_number subnetwork_builders features mode
    labels previous_ensemble_summary previous_ensemble_spec rebuilding params
  = Ok it →
  ∃ reports,
    subnetwork_reports it = PyDict (PyReport <$> reports)
    ∧ (mode ≠ tf.PREDICT →
       ∀ b, b ∈ subnetwork_builders →
         let spec :=
           new_ensemble_spec self iteration_number features mode labels
             previous_ensemble_spec rebuilding params
             (iteration_step_tensor_of iteration_number) b in
         ∃ r, reports !! subnetwork.name b = Some r
              ∧ subnetwork.metrics r
                = <["adanet_loss" :=
                      tf.metrics_mean (ensemble.adanet_loss spec)]>
                    (own_metrics spec ∪ hook_metrics b))
    ∧ (mode = tf.EVAL →
       ∀ prev, previous_ensemble_spec = Some prev →
         "previous_ensemble" ∉ subnetwork.name <$> subnetwork_builders →
         ∃ r, reports !! "previous_ensemble" = Some r
              ∧ subnetwork.hparams r = ∅
              ∧ subnetwork.attributes r = ∅
              ∧ subnetwork.metrics r
                = <["adanet_loss" :=
                      tf.metrics_mean (ensemble.adanet_loss prev)]>
                    (own_metrics prev))
    ∧ (mode = tf.TRAIN →
       dom reports = list_to_set (subnetwork.name <$> subnetwork_builders)).
Proof.
  intros Hbuild.
  apply build_iteration_Ok in Hbuild as (Hnd & bp & bl & beo & hooks & emo
                                           & trop & _ & _ & _ & _ & _ & ->).
  eexists. split; [reflexivity |]. split; [| split].
  - intros Hmode b Hb spec. eexists. split.
    + by apply reports_lookup_builder.
    + apply builder_report_metrics.
  - intros Hmode prev Hprev Hfree. eexists. split.
    + by apply reports_lookup_previous.
    + done.
  - intros ->. rewrite reports_dom. simpl. set_solver.
Qed.

Lemma reports_per_candidate_witness :
  let builders :=
    [example_subnetwork_builder "dnn"; example_subnetwork_builder "cnn"] in
  ∃ it reports,
    build_iteration example_iteration_builder 1 builders ∅ tf.EVAL None None
      (Some example_previous_ensemble) false None = Ok it
    ∧ subnetwork_reports it = PyDict (PyReport <$> reports)
    ∧ (∃ r, reports !! "previous_ensemble" = Some r
            ∧ subnetwork.hparams r = ∅
            ∧ subnetwork.attributes r = ∅
            ∧ subnetwork.metrics r
              = <["adanet_loss" :=
                    tf.metrics_mean
                      (ensemble.adanet_loss example_previous_ensemble)]>
                  (own_metrics example_previous_ensemble)).
Proof.
  intros builders.
  assert (∃ it,
            build_iteration example_iteration_builder 1 builders ∅ tf.EVAL
              None None (Some example_previous_ensemble) false None = Ok it)
    as [it Hbuild] by (eexists; vm_compute; reflexivity).
  destruct (reports_per_candidate _ _ _ _ _ _ _ _ _ _ _ Hbuild)
    as (reports & Hreports & _ & Hprev & _).
  exists it, reports. split; [exact Hbuild |]. split; [exact Hreports |].
  apply (Hprev eq_refl example_previous_ensemble eq_refl).
  assert (bool_decide
            ("previous_ensemble" ∈ subnetwork.name <$> builders) = false)
    as Hfree by (vm_compute; reflexivity).
  by apply bool_decide_eq_false in Hfree.
Defined.

(** ** C10: the keys of the reports *)

(** C10. In every iteration that [build_iteration] returns, the keys of
    [subnetwork_reports] are the builders' own names (outside PREDICT mode)
    and, in EVAL mode with a previous ensemble, the fixed key
    ["previous_ensemble"], whatever the previous ensemble is called; each
    builder's report is stored under the builder's name, and the previous
    ensemble's report under ["previous_ensemble"] unless a builder bears
    that name.  For some inputs these keys are not the candidates' names. *)
Theorem report_keys_not_candidate_names :
  (∀ self iteration_number subnetwork_builders features mode labels
     previous_ensemble_summary previous_ensemble_spec rebuilding params it,
     build_iteration self iteration_number subnetwork_builders features mode
       labels previous_ensemble_summary previous_ensemble_spec rebuilding
       params = Ok it →
     ∃ reports,
       subnetwork_reports it = PyDict (PyReport <$> reports)
       ∧ dom reports
         = (if tf.mode_eqb mode tf.PREDICT then ∅
            else list_to_set (subnetwork.name <$> subnetwork_builders))
           ∪ (if tf.mode_eqb mode tf.EVAL
                 && bool_decide (is_Some previous_ensemble_spec)
              then {["previous_ensemble"]} else ∅)
       ∧ (mode ≠ tf.PREDICT →
          ∀ b, b ∈ subnetwork_builders →
            reports !! subnetwork.name b
            = Some (builder_report b
                      (new_ensemble_spec self iteration_number features mode
                         labels previous_ensemble_spec rebuilding params
                         (iteration_step_tensor_of iteration_number) b)))
       ∧ (mode = tf.EVAL →
          ∀ prev, previous_ensemble_spec = Some prev →
            "previous_ensemble" ∉ subnetwork.name <$> subnetwork_builders →
            reports !! "previous_ensemble"
            = Some (previous_ensemble_report prev)))
  ∧ (∃ it reports cands,
       build_iteration example_iteration_builder 1
         [example_subnetwork_builder "dnn"] ∅ tf.EVAL None None
         (Some example_previous_ensemble) false None = Ok it
       ∧ subnetwork_reports it = PyDict (PyReport <$> reports)
       ∧ candidates it = PyList (PyCandidate <$> cands)
       ∧ dom reports = {["previous_ensemble"; "dnn"]}
       ∧ candidate_names cands = {["linear"; "t1_dnn"]}
       ∧ dom reports ≠ candidate_names cands).
Proof.
  split.
  - intros self n builders features mode labels psum prev rebuilding params
      it Hbuild.
    apply build_iteration_Ok in Hbuild as (Hnd & bp & bl & beo & hooks & emo
                                             & trop & _ & _ & _ & _ & _ & ->).
    eexists. split; [reflexivity |]. split; [apply reports_dom |]. split.
    + intros Hmode b Hb. by apply reports_lookup_builder.
    + intros Hmode p Hp Hfree. by apply reports_lookup_previous.
  - assert (∃ it,
              build_iteration example_iteration_builder 1
                [example_subnetwork_builder "dnn"] ∅ tf.EVAL None None
                (Some example_previous_ensemble) false None = Ok it)
      as [it Hbuild] by (eexists; vm_compute; reflexivity).
    exists it. eexists _, _. split; [exact Hbuild |].
    apply build_iteration_Ok in Hbuild as (_ & bp & bl & beo & hooks & emo
                                             & trop & _ & _ & _ & _ & _ & ->).
    split; [reflexivity |]. split; [reflexivity |].
    assert (dom (l_subnetwork_reports
                   (locals_of example_iteration_builder 1
                      [example_subnetwork_builder "dnn"] ∅ tf.EVAL None None
                      (Some example_previous_ensemble) false None))
            = {["previous_ensemble"; "dnn"]}) as Hdom.
    { rewrite reports_dom. simpl. set_solver. }
    assert (candidate_names
              (l_candidates
                 (locals_of example_iteration_builder 1
                    [example_subnetwork_builder "dnn"] ∅ tf.EVAL None None
                    (Some example_previous_ensemble) false None))
            = {["linear"; "t1_dnn"]}) as Hnames.
    { unfold candidate_names, locals_of. simpl.
      change (new_ensemble_name 1 (example_subnetwork_builder "dnn"))
        with "t1_dnn".
      set_solver. }
    split; [exact Hdom |]. split; [exact Hnames |].
    rewrite Hdom, Hnames. intros Heq.
    assert ("dnn" ∈ ({["linear"; "t1_dnn"]} : gset string)) as Hin
      by (rewrite <- Heq; set_solver).
    apply elem_of_union in Hin as [Hin | Hin];
      apply elem_of_singleton in Hin; discriminate.
Qed.

Lemma report_keys_not_candidate_names_witness :
  ∃ it reports,
    build_iteration example_iteration_builder 1
      [example_subnetwork_builder "dnn"] ∅ tf.EVAL None None
      (Some example_previous_ensemble) false None = Ok it
    ∧ subnetwork_reports it = PyDict (PyReport <$> reports)
    ∧ reports !! "previous_ensemble"
      = Some (previous_ensemble_report example_previous_ensemble).
Proof.
  assert (∃ it,
            build_iteration example_iteration_builder 1
              [example_subnetwork_builder "dnn"] ∅ tf.EVAL None None
              (Some example_previous_ensemble) false None = Ok it)
    as [it Hbuild] by (eexists; vm_compute; reflexivity).
  destruct (proj1 report_keys_not_candidate_names _ _ _ _ _ _ _ _ _ _ _
              Hbuild) as (reports & Hreports & _ & _ & Hprev).
  exists it, reports. split; [exact Hbuild |]. split; [exact Hreports |].
  apply (Hprev eq_refl example_previous_ensemble eq_refl).
  assert (bool_decide
            ("previous_ensemble"
             ∈ subnetwork.name <$> [example_subnetwork_builder "dnn"]) = false)
    as Hfree by (vm_compute; reflexivity).
  by apply bool_decide_eq_false in Hfree.
Defined.

(** ** C5: the best eval metrics with eleven candidates *)

(** C5, at the failing input.  With eleven candidates that all report an
    ["accuracy"] metric, candidate 2 has the smallest loss and the best
    index evaluates to 2; the ["accuracy"] entry of the best eval metrics
    stacks the candidates' values in the order of the sorted keys
    [candidate_0, candidate_1, candidate_10, candidate_2, ...], so that
    position 2 holds the value of candidate 10: the entry evaluates to 10,
    not to the winning candidate's 2. *)
Theorem best_eval_metric_of_wrong_candidate :
  let best := _best_candidate_index eleven_candidates in
  tf.eval steady_world ∅ best = Some (tf.VInt 2)
  ∧ ∃ metric_fn kwargs eval_metric_ops value update,
      _create_best_eval_metrics_tuple eleven_candidates best tf.EVAL None
      = Some (metric_fn, kwargs)
      ∧ metric_fn kwargs = Ok eval_metric_ops
      ∧ eval_metric_ops !! "accuracy" = Some (value, update)
      ∧ (∃ values idx,
           value = tf.getitem (tf.stack values) idx
           ∧ values !! 2%nat = Some (tf.constant (tf.VFloat 10))
           ∧ values !! 3%nat = Some (tf.constant (tf.VFloat 2)))
      ∧ tf.eval steady_world ∅ value = Some (tf.VFloat 10).
Proof.
  intros best. split; [vm_compute; reflexivity |].
  eexists _, _, _, _, _.
  split; [reflexivity |].
  split; [vm_compute; reflexivity |].
  split; [vm_compute; reflexivity |].
  split; [| vm_compute; reflexivity].
  eexists _, _. split; [reflexivity |]. split; reflexivity.
Qed.
